(** * DeveloperGuide: the PyMongo example applications

    A shallow embedding of the two example programs
    [mongodb/pymongo/examples/basic_crud_app.py] (class [TaskManager]) and
    [mongodb/pymongo/examples/blog_system.py] (class [BlogSystem]), with the
    part of the document database they talk to.

    - [Bson]: the values a document holds, [ObjectId] and Python truthiness.
    - [Mongo]: collections as lists of documents, the query and update
      operators the two programs use.
    - [TaskManager], [BlogSystem]: the methods, written in a state and
      exception monad over the collections.
    - The theorems follow the definitions. *)

From Stdlib Require Import ZArith Lia Ascii Permutation Sorted.
From stdpp Require Import gmap strings list fin_maps pretty sorting.

#[local] Set Warnings "-register-all".
#[local] Open Scope Z_scope.

(* ===================================================================== *)
(** ** BSON values and ObjectId *)
(* ===================================================================== *)

Module Bson.

(** An ObjectId is a 12-byte value; only its equality matters here. *)
Definition oid := N.

(** What a document field (and a Python variable passed to the driver)
    can hold. Datetimes are milliseconds since the epoch, the precision
    BSON stores. *)
Inductive value :=
| VNull
| VBool (b : bool)
| VInt (n : Z)
| VStr (s : string)
| VDate (ms : Z)
| VOid (o : oid)
| VArr (l : list value).

Fixpoint value_eq_dec (x y : value) {struct x} : {x = y} + {x <> y}.
Proof.
  refine (match x, y with
          | VNull, VNull => left eq_refl
          | VBool a, VBool b => cast_if (decide (a = b))
          | VInt a, VInt b => cast_if (decide (a = b))
          | VStr a, VStr b => cast_if (decide (a = b))
          | VDate a, VDate b => cast_if (decide (a = b))
          | VOid a, VOid b => cast_if (decide (a = b))
          | VArr a, VArr b => cast_if (@list_eq_dec _ value_eq_dec a b)
          | _, _ => right _
          end); congruence.
Defined.

#[global] Instance value_eqdec : EqDecision value := value_eq_dec.

(** The exceptions the two programs can meet. *)
Inductive exn :=
| InvalidId
| TypeError
| KeyError
| DuplicateKeyError
| WriteError
| OperationFailure
| OverflowError.

Inductive result (A : Type) :=
| Ok (a : A)
| Raise (e : exn).
Arguments Ok {A} a.
Arguments Raise {A} e.

(** The text form of an ObjectId belongs to the [bson] package, not to
    this repository: [oid_of_str] is what [ObjectId(s)] accepts for a
    string [s] (24 hexadecimal digits in the package), [str_of_oid] is
    [str(oid)]. *)
Class ObjectIdText := {
  oid_of_str : string -> option oid;
  str_of_oid : oid -> string
}.

(** Python truthiness: [None], [False], [0], [""] and [[]] are falsy. *)
Definition truthy (v : value) : bool :=
  match v with
  | VNull => false
  | VBool b => b
  | VInt n => negb (n =? 0)
  | VStr s => negb (bool_decide (s = ""))
  | VDate _ => true
  | VOid _ => true
  | VArr l => negb (bool_decide (l = []))
  end.

Section ObjectId.
Context `{ObjectIdText}.

(** [ObjectId(s)] for a string [s]. *)
Definition ObjectId_str (s : string) : result oid :=
  match oid_of_str s with
  | Some o => Ok o
  | None => Raise InvalidId
  end.

(** [ObjectId(v)] for an argument that is not [None]: an ObjectId is
    copied, a string is parsed, anything else is a [TypeError]. *)
Definition ObjectId_given (v : value) : result oid :=
  match v with
  | VOid o => Ok o
  | VStr s => ObjectId_str s
  | _ => Raise TypeError
  end.

(** [ObjectId(v)]: [None] makes the constructor generate a new
    identifier, [gen]. *)
Definition ObjectId (gen : oid) (v : value) : result oid :=
  match v with
  | VNull => Ok gen
  | _ => ObjectId_given v
  end.

(** [ObjectId.is_valid(v)]: falsy values (so [None]) are refused first,
    then the constructor is tried and [InvalidId] and [TypeError] are
    caught. *)
Definition is_valid (v : value) : bool :=
  if negb (truthy v) then false
  else match ObjectId_given v with
       | Ok _ => true
       | Raise _ => false
       end.
End ObjectId.

(** The text form the [bson] package uses: 24 hexadecimal digits, written
    in lower case. *)
Definition hex_value (c : ascii) : option N :=
  let n := N_of_ascii c in
  (if (48 <=? n) && (n <=? 57) then Some (n - 48)
   else if (97 <=? n) && (n <=? 102) then Some (n - 87)
   else if (65 <=? n) && (n <=? 70) then Some (n - 55)
   else None)%N.

Fixpoint hex_number (acc : N) (s : string) : option N :=
  match s with
  | EmptyString => Some acc
  | String c s' =>
      match hex_value c with
      | Some d => hex_number (16 * acc + d)%N s'
      | None => None
      end
  end.

Definition hex_char (d : N) : ascii :=
  (if d <? 10 then ascii_of_N (48 + d) else ascii_of_N (87 + d))%N.

Fixpoint hex_digits (k : nat) (n : N) (tail : string) : string :=
  match k with
  | O => tail
  | S k' => hex_digits k' (n / 16)%N (String (hex_char (n mod 16)%N) tail)
  end.

Definition hex_text : ObjectIdText := {|
  oid_of_str s := if (String.length s =? 24)%nat then hex_number 0%N s else None;
  str_of_oid o := hex_digits 24 o ""
|}.

End Bson.

(* ===================================================================== *)
(** ** The document database *)
(* ===================================================================== *)

Module Mongo.
Import Bson.

(** A document is a finite map from field names to values (top-level
    field names, as both programs use them); a collection keeps its
    documents in insertion order. *)
Abbreviation doc := (gmap string value).
Abbreviation collection := (list (gmap string value)).

(** The conditions that occur in the queries of the two programs:
    a plain value (equality), [{"$lt": datetime}] and [{"$nin": [...]}]. *)
Inductive cond :=
| CEq (v : value)
| CLtDate (bound : Z)
| CNin (vs : list value).

(** A query is a Python dict from field names to conditions, all of
    which must hold. *)
Definition query := list (string * cond).

(** The values a field offers to a condition: the stored value and, when
    it is an array, each of its elements. *)
Definition field_values (fv : option value) : list value :=
  match fv with
  | None => []
  | Some (VArr l) => VArr l :: l
  | Some v => [v]
  end.

Definition is_date_before (bound : Z) (v : value) : bool :=
  match v with
  | VDate ms => ms <? bound
  | _ => false
  end.

Definition value_in (vs : list value) (v : value) : bool :=
  existsb (fun w => bool_decide (v = w)) vs.

(** Equality with [None] also selects the documents that lack the field. *)
Definition cond_holds (c : cond) (fv : option value) : bool :=
  match c with
  | CEq v =>
      existsb (fun w => bool_decide (w = v)) (field_values fv)
      || (bool_decide (v = VNull) && bool_decide (fv = None))
  | CLtDate bound => existsb (is_date_before bound) (field_values fv)
  | CNin vs => forallb (fun w => negb (value_in vs w)) (field_values fv)
  end.

(** The field [f] of [d] holds [v]: it is [v], or an array with the
    element [v]. *)
Definition holds (d : doc) (f : string) (v : value) : Prop :=
  d !! f = Some v \/ exists l, d !! f = Some (VArr l) /\ v ∈ l.

Definition matches (q : query) (d : doc) : bool :=
  forallb (fun fc => cond_holds (snd fc) (d !! fst fc)) q.

(** [collection.find(q)], [find_one(q)], [count_documents(q)]. *)
Definition find (q : query) (c : collection) : list doc :=
  filter (fun d => matches q d) c.

Definition find_one (q : query) (c : collection) : option doc :=
  snd <$> list_find (fun d => matches q d) c.

Definition count_documents (q : query) (c : collection) : Z :=
  Z.of_nat (length (find q c)).

(** The names a [$set] can take in this model are the names of top-level
    fields: not empty, without a dot (a dotted name is a path into a
    subdocument, and the values of this model have no subdocuments),
    without a NUL character (the driver does not encode it) and without a
    dollar sign in front (an operator). *)
Fixpoint no_dot_or_nul (s : string) : bool :=
  match s with
  | EmptyString => true
  | String c s' =>
      negb (bool_decide (c = "."%char)) && negb (bool_decide (c = "000"%char))
      && no_dot_or_nul s'
  end.

Definition top_level (s : string) : bool :=
  match s with
  | EmptyString => false
  | String c _ => negb (bool_decide (c = "$"%char)) && no_dot_or_nul s
  end.

Definition field_name : Type := { s : string | top_level s }.

#[global] Instance field_name_inj :
  Inj (=) (=) (proj1_sig : field_name -> string).
Proof. apply proj1_sig_inj. intros x. apply _. Qed.

Definition field_of (s : string) (H : top_level s) : field_name := s ↾ H.

(** [key "status"] is the field name ["status"]. *)
Abbreviation key s := (field_of s I).

(** The dict of a [$set], read as a document. *)
Definition set_doc (fields : gmap field_name value) : doc :=
  kmap proj1_sig fields.

(** The update operators used on these collections: [{"$set": fields}]
    and [{"$inc": {field: delta}}]. [$set] overwrites the named fields
    and keeps the others; [$inc] creates a missing field and fails on one
    that is not a number. *)
Inductive update :=
| USet (fields : gmap field_name value)
| UInc (field : string) (delta : Z).

(** The document that the operator makes of [d]. *)
Definition updated (u : update) (d : doc) : result doc :=
  match u with
  | USet fields => Ok (set_doc fields ∪ d)
  | UInc f delta =>
      match d !! f with
      | None => Ok (<[f := VInt delta]> d)
      | Some (VInt n) => Ok (<[f := VInt (n + delta)]> d)
      | Some _ => Raise WriteError
      end
  end.

(** [_id] is immutable: the server refuses an update after which the
    document would have another [_id]. *)
Definition apply_update (u : update) (d : doc) : result doc :=
  match updated u d with
  | Ok d' =>
      if bool_decide (d' !! "_id" = d !! "_id") then Ok d'
      else Raise WriteError
  | Raise e => Raise e
  end.

Record UpdateResult := {
  matched_count : Z;
  modified_count : Z
}.

(** The value of the field [f], [null] for a document without it. *)
Definition index_key (f : string) (d : doc) : value :=
  default VNull (d !! f).

(** The keys an index on [f] files [d] under: the value of the field,
    and for an array each of its elements; an empty array has the one
    key undefined, which is [None] here. *)
Definition index_keys (f : string) (d : doc) : list (option value) :=
  match d !! f with
  | Some (VArr []) => [None]
  | Some (VArr vs) => Some <$> vs
  | _ => [Some (index_key f d)]
  end.

(** Some document of [c] has the key [k]. *)
Definition indexed (f : string) (k : option value) (c : collection) : bool :=
  existsb (fun e => bool_decide (k ∈ index_keys f e)) c.

(** A unique index on [f] refuses [d] beside the documents of [c]. *)
Definition violates_unique (f : string) (d : doc) (c : collection) : bool :=
  existsb (fun k => indexed f k c) (index_keys f d).

(** The keys that an update from [d] to [d'] adds to the index. *)
Definition new_keys (f : string) (d d' : doc) : list (option value) :=
  filter (fun k => k ∉ index_keys f d) (index_keys f d').

(** The update of the document at position [i] from [d] to [d'] adds,
    to a unique index of [unique], a key that another document of the
    collection has. *)
Definition update_violates (unique : list string) (i : nat) (d d' : doc)
           (c : collection) : bool :=
  existsb (fun f => existsb (fun k => indexed f k (delete i c))
                            (new_keys f d d')) unique.

(** [update_one(q, u)] on a collection with the unique indexes [unique]
    changes the first document that matches, and counts it as modified
    only when the update changed it. The server refuses the update, and
    writes nothing, when it would change [_id] or repeat a key of a
    unique index. *)
Definition update_one (unique : list string) (q : query) (u : update)
           (c : collection) : result (collection * UpdateResult) :=
  match list_find (fun d => matches q d) c with
  | None => Ok (c, {| matched_count := 0; modified_count := 0 |})
  | Some (i, d) =>
      match apply_update u d with
      | Raise e => Raise e
      | Ok d' =>
          if update_violates unique i d d' c then Raise DuplicateKeyError
          else
            Ok (<[i := d']> c,
                {| matched_count := 1;
                   modified_count := if bool_decide (d' = d) then 0 else 1 |})
      end
  end.

(** [delete_one(q)] removes the first document that matches; the result
    is the new collection and [deleted_count]. *)
Definition delete_one (q : query) (c : collection) : collection * Z :=
  match list_find (fun d => matches q d) c with
  | None => (c, 0)
  | Some (i, _) => (delete i c, 1)
  end.

(** The [_id] of a document is not an array. *)
Definition scalar_id (d : doc) : bool :=
  match d !! "_id" with
  | Some (VArr _) => false
  | _ => true
  end.

(** The server stores no document whose [_id] is an array. *)
Definition ids_scalar (c : collection) : Prop :=
  Forall (fun d => scalar_id d = true) c.

(** [insert_one(d)]: the driver adds a generated [_id] ([fresh]) to a
    document that has none; the server refuses the document when [_id]
    or a field under a unique index ([unique]) repeats a stored key. *)
Definition insert_one (unique : list string) (fresh : oid) (d : doc)
           (c : collection) : result (collection * value) :=
  let d' := match d !! "_id" with
            | Some _ => d
            | None => <["_id" := VOid fresh]> d
            end in
  if existsb (fun f => violates_unique f d' c) ("_id" :: unique)
  then Raise DuplicateKeyError
  else Ok (c ++ [d'], index_key "_id" d').

End Mongo.

(* ===================================================================== *)
(** ** Methods: state and exceptions *)
(* ===================================================================== *)

Module Py.
Import Bson.

(** A method runs on the database [S] and ends with a value or an
    exception; what was written before an exception stays written. *)
Definition M (S A : Type) : Type := S -> result A * S.

Definition ret {S A} (a : A) : M S A := fun s => (Ok a, s).

Definition raise {S A} (e : exn) : M S A := fun s => (Raise e, s).

Definition bind {S A B} (m : M S A) (k : A -> M S B) : M S B :=
  fun s =>
    match m s with
    | (Ok a, s') => k a s'
    | (Raise e, s') => (Raise e, s')
    end.

Definition lift {S A} (r : result A) : M S A :=
  match r with
  | Ok a => ret a
  | Raise e => raise e
  end.

(** [try: m  except <the exceptions that handles accepts>: h]. *)
Definition try_except {S A} (m : M S A) (handles : exn -> bool) (h : M S A)
  : M S A :=
  fun s =>
    match m s with
    | (Ok a, s') => (Ok a, s')
    | (Raise e, s') => if handles e then h s' else (Raise e, s')
    end.

(** [except Exception]. *)
Definition any_exception (e : exn) : bool := true.

(** [except DuplicateKeyError]. *)
Definition is_duplicate_key (e : exn) : bool :=
  match e with
  | DuplicateKeyError => true
  | _ => false
  end.

Module Notations.
Notation "'let*' x ':=' m 'in' k" := (bind m (fun x => k))
  (at level 10, x name, m at level 100, k at level 200).
Notation "'run' m 'in' k" := (bind m (fun _ => k))
  (at level 10, m at level 100, k at level 200).
End Notations.

End Py.

(* ===================================================================== *)
(** ** basic_crud_app.py: class TaskManager *)
(* ===================================================================== *)

Module TaskManager.
Import Bson Mongo Py Py.Notations.

(** The database [task_management] with its two collections. *)
Record db := {
  tasks : collection;
  users : collection
}.

Inductive coll := Tasks | Users.

Definition get_coll (n : coll) (s : db) : collection :=
  match n with
  | Tasks => tasks s
  | Users => users s
  end.

Definition set_coll (n : coll) (c : collection) (s : db) : db :=
  match n with
  | Tasks => {| tasks := c; users := users s |}
  | Users => {| tasks := tasks s; users := c |}
  end.

(** The unique indexes of [setup_indexes]. *)
Definition unique_fields (n : coll) : list string :=
  match n with
  | Tasks => ["task_id"]
  | Users => ["email"; "username"]
  end.

Abbreviation M := (Py.M db).

(** The collection methods, as steps of a method. *)
Definition c_find (n : coll) (q : query) : M (list doc) :=
  fun s => (Ok (find q (get_coll n s)), s).

Definition c_find_one (n : coll) (q : query) : M (option doc) :=
  fun s => (Ok (find_one q (get_coll n s)), s).

Definition c_count_documents (n : coll) (q : query) : M Z :=
  fun s => (Ok (count_documents q (get_coll n s)), s).

Definition c_insert_one (n : coll) (fresh : oid) (d : doc) : M value :=
  fun s =>
    match insert_one (unique_fields n) fresh d (get_coll n s) with
    | Ok (c, i) => (Ok i, set_coll n c s)
    | Raise e => (Raise e, s)
    end.

Definition c_update_one (n : coll) (q : query) (u : update) : M UpdateResult :=
  fun s =>
    match update_one (unique_fields n) q u (get_coll n s) with
    | Ok (c, r) => (Ok r, set_coll n c s)
    | Raise e => (Raise e, s)
    end.

Definition c_delete_one (n : coll) (q : query) : M Z :=
  fun s =>
    let '(c, k) := delete_one q (get_coll n s) in (Ok k, set_coll n c s).

(** ["@" in identifier]. *)
Fixpoint contains_at (s : string) : bool :=
  match s with
  | EmptyString => false
  | String c s' => bool_decide (c = "@"%char) || contains_at s'
  end.

(** [f"{n:04d}"] for a count. *)
Fixpoint zeros (k : nat) : string :=
  match k with
  | O => ""
  | S k' => String "0" (zeros k')
  end.

Definition format_04d (n : nat) : string :=
  let s := pretty n in zeros (4 - String.length s) +:+ s.

Section TaskMethods.
Context `{ObjectIdText}.

(** *** User management *)

Definition create_user (fresh : oid) (utcnow : Z)
           (username email full_name : string) : M (option value) :=
  let user_data : doc :=
    list_to_map [("username", VStr username);
                 ("email", VStr email);
                 ("full_name", VStr full_name);
                 ("created_at", VDate utcnow);
                 ("task_count", VInt 0);
                 ("active", VBool true)] in
  try_except
    (let* inserted_id := c_insert_one Users fresh user_data in
     ret (Some inserted_id))
    is_duplicate_key
    (ret None).

(** The query [get_user] builds before it calls [find_one]. *)
Definition get_user_query (identifier : string) : M query :=
  if is_valid (VStr identifier) then
    let* o := lift (ObjectId_str identifier) in
    ret [("_id", CEq (VOid o))]
  else if contains_at identifier then
    ret [("email", CEq (VStr identifier))]
  else
    ret [("username", CEq (VStr identifier))].

Definition get_user (identifier : string) : M (option doc) :=
  let* query := get_user_query identifier in
  c_find_one Users query.

(** *** Task management *)

(** The query that [get_task], [update_task] and [delete_task] build from
    a task identifier, which is an ObjectId, its text, or a [task_id].
    A valid identifier is not [None], so the constructor generates nothing
    here. *)
Definition task_query (task_identifier : value) : M query :=
  if is_valid task_identifier then
    let* o := lift (ObjectId_given task_identifier) in
    ret [("_id", CEq (VOid o))]
  else
    ret [("task_id", CEq task_identifier)].

(** [created] and [updated] are the two readings of [datetime.utcnow()]. *)
Definition create_task (fresh : oid) (created updated : Z)
           (title description user_id priority : string)
           (due_date : value) : M (option value) :=
  let* n := c_count_documents Tasks [] in
  let task_count := n + 1 in
  let task_id := "TASK-" +:+ format_04d (Z.to_nat task_count) in
  let task_data : doc :=
    list_to_map [("task_id", VStr task_id);
                 ("title", VStr title);
                 ("description", VStr description);
                 ("user_id", VStr user_id);
                 ("status", VStr "todo");
                 ("priority", VStr priority);
                 ("created_at", VDate created);
                 ("updated_at", VDate updated);
                 ("due_date", due_date);
                 ("completed_at", VNull);
                 ("tags", VArr []);
                 ("comments", VArr [])] in
  try_except
    (let* inserted_id := c_insert_one Tasks fresh task_data in
     let* o := lift (ObjectId_str user_id) in
     run c_update_one Users [("_id", CEq (VOid o))] (UInc "task_count" 1) in
     ret (Some inserted_id))
    any_exception
    (ret None).

Definition get_task (task_identifier : value) : M (option doc) :=
  let* query := task_query task_identifier in
  c_find_one Tasks query.



(** [if not task]: [None] and the empty dict are falsy. *)
Definition not_task (task : option doc) : bool :=
  match task with
  | None => true
  | Some t => bool_decide (t = ∅)
  end.

(** [gen] is the identifier that [ObjectId(task["user_id"])] generates
    when the stored owner is [None]. *)
Definition delete_task (gen : oid) (task_identifier : value) : M bool :=
  let* task := get_task task_identifier in
  if not_task task then ret false
  else
    let* query := task_query task_identifier in
    let* deleted_count := c_delete_one Tasks query in
    if deleted_count >? 0 then
      let* user_id := match task ≫= (fun t => t !! "user_id") with
                 | Some v => ret v
                 | None => raise KeyError
                 end in
      let* o := lift (ObjectId gen user_id) in
      run c_update_one Users [("_id", CEq (VOid o))] (UInc "task_count" (-1)) in
      ret true
    else ret false.

(** A client that creates one task after another, as [main] does. A call
    is given with its owner, the identifier the driver generates and the
    two clock readings. *)
Record new_task := {
  nt_user_id : string;
  nt_fresh : oid;
  nt_created : Z;
  nt_updated : Z;
  nt_title : string;
  nt_description : string;
  nt_priority : string;
  nt_due_date : value
}.

Fixpoint create_tasks (calls : list new_task) : M (list (option value)) :=
  match calls with
  | [] => ret []
  | c :: calls' =>
      let* r := create_task (nt_fresh c) (nt_created c) (nt_updated c)
                  (nt_title c) (nt_description c) (nt_user_id c)
                  (nt_priority c) (nt_due_date c) in
      let* rs := create_tasks calls' in
      ret (r :: rs)
  end.

(** The number of calls of a run, with the results [rs], that returned an
    identifier and were made for the user [o]. *)
Fixpoint created_for (o : oid) (calls : list new_task)
         (rs : list (option value)) : nat :=
  match calls, rs with
  | c :: calls', Some _ :: rs' =>
      (if bool_decide (oid_of_str (nt_user_id c) = Some o) then 1 else 0)
      + created_for o calls' rs'
  | _ :: calls', None :: rs' => created_for o calls' rs'
  | _, _ => 0
  end.

(** What the [users] collection says about the user [o]. *)
Definition task_count_of (o : oid) (s : db) : option value :=
  find_one [("_id", CEq (VOid o))] (users s) ≫= fun u => u !! "task_count".

(** *** Reports *)

Definition get_overdue_tasks (current_time : Z) : M (list doc) :=
  c_find Tasks [("due_date", CLtDate current_time);
                ("status", CNin [VStr "completed"; VStr "cancelled"])].

(** A task is overdue at [now]: it holds a due date before [now] and its
    status holds neither ["completed"] nor ["cancelled"]. *)
Definition overdue (now : Z) (t : doc) : Prop :=
  (exists ms, holds t "due_date" (VDate ms) /\ ms < now)
  /\ ~ holds t "status" (VStr "completed")
  /\ ~ holds t "status" (VStr "cancelled").

End TaskMethods.

End TaskManager.

(* ===================================================================== *)
(** ** blog_system.py: class BlogSystem *)
(* ===================================================================== *)

Module BlogSystem.
Import Bson Py Py.Notations.

(** Every document of the blog is written by one method with a fixed set
    of fields and changed only by fixed operators, so the documents are
    records. A character of a string is a code point below 256. *)

Module User.
Record t := {
  _id : oid;
  username : string;
  email : string;
  full_name : string;
  bio : string;
  article_count : Z;
  comment_count : Z
}.
End User.

Module Article.
Record t := {
  _id : oid;
  title : string;
  content : string;
  author_id : string;
  category : string;
  tags : list string;
  status : string;
  created_date : Z;
  published_date : option Z;
  updated_date : Z;
  view_count : Z;
  like_count : Z;
  comment_count : Z;
  likes : list string;
  featured : bool;
  meta_description : string;
  reading_time : Z
}.

#[global] Instance eq_dec : EqDecision t.
Proof. solve_decision. Defined.

(** The article [a] with its [likes] and [like_count] replaced, the two
    fields that [$push], [$pull] and [$inc] touch in [like_article]. *)
Definition with_likes (a : t) (l : list string) (n : Z) : t :=
  {| _id := _id a; title := title a; content := content a;
     author_id := author_id a; category := category a; tags := tags a;
     status := status a; created_date := created_date a;
     published_date := published_date a; updated_date := updated_date a;
     view_count := view_count a; like_count := n;
     comment_count := comment_count a; likes := l;
     featured := featured a; meta_description := meta_description a;
     reading_time := reading_time a |}.
End Article.

Module Comment.
Record t := {
  _id : oid;
  article_id : string;
  author_id : string;
  content : string;
  parent_id : option string;
  created_date : Z;
  updated_date : Z;
  like_count : Z;
  likes : list string;
  is_approved : bool
}.
End Comment.

(** The database [blog_system]. *)
Record db := {
  users : list User.t;
  articles : list Article.t;
  comments : list Comment.t
}.

Abbreviation M := (Py.M db).

Definition set_articles (c : list Article.t) (s : db) : db :=
  {| users := users s; articles := c; comments := comments s |}.

(** [articles.find_one({"_id": o})]. *)
Definition articles_find_one (o : oid) : M (option Article.t) :=
  fun s =>
    (Ok (snd <$> list_find (fun a => Article._id a = o) (articles s)), s).

(** [articles.update_one({"_id": o}, u)] for an update [u] that cannot
    fail: the result is [modified_count]. *)
Definition articles_update_one (o : oid) (u : Article.t -> Article.t) : M Z :=
  fun s =>
    match list_find (fun a => Article._id a = o) (articles s) with
    | None => (Ok 0, s)
    | Some (i, a) =>
        (Ok (if bool_decide (u a = a) then 0 else 1),
         set_articles (<[i := u a]> (articles s)) s)
    end.

(** [articles.insert_one(a)]: only [_id] is unique in this collection. *)
Definition articles_insert_one (a : Article.t) : M oid :=
  fun s =>
    if existsb (fun b => bool_decide (Article._id b = Article._id a))
               (articles s)
    then (Raise DuplicateKeyError, s)
    else (Ok (Article._id a), set_articles (articles s ++ [a]) s).

(** [{"$pull": {"likes": user_id}, "$inc": {"like_count": -1}}]: [$pull]
    removes every element equal to [user_id]. *)
Definition pull_like (user_id : string) (a : Article.t) : Article.t :=
  Article.with_likes a
    (filter (fun u => u <> user_id) (Article.likes a))
    (Article.like_count a - 1).

(** [{"$push": {"likes": user_id}, "$inc": {"like_count": 1}}]. *)
Definition push_like (user_id : string) (a : Article.t) : Article.t :=
  Article.with_likes a (Article.likes a ++ [user_id]) (Article.like_count a + 1).

(** The article that a call of [like_article] by [user_id] leaves in
    place of [a]. *)
Definition toggled (user_id : string) (a : Article.t) : Article.t :=
  if bool_decide (user_id ∈ Article.likes a) then pull_like user_id a
  else push_like user_id a.

(** *** Utility methods *)

(** [str.isspace] on a code point below 256. *)
Definition is_space (c : ascii) : bool :=
  let n := nat_of_ascii c in
  ((9 <=? n) && (n <=? 13) || (28 <=? n) && (n <=? 32)
   || (n =? 133) || (n =? 160))%nat.

(** [content.split()]: the maximal runs of characters that are not
    whitespace; [word] is the run read so far. *)
Fixpoint split_from (word : string) (s : string) : list string :=
  match s with
  | EmptyString => if bool_decide (word = "") then [] else [word]
  | String c s' =>
      if is_space c
      then if bool_decide (word = "") then split_from "" s'
           else word :: split_from "" s'
      else split_from (word +:+ String c "") s'
  end.

Definition split (s : string) : list string := split_from "" s.

(** [round(n / d)] for integers [n >= 0] and [d > 0]: the nearest integer,
    a tie going to the even one. (Python divides in floating point; for a
    count below 2^53 the rounded result is that of the exact quotient.) *)
Definition round_div (n d : Z) : Z :=
  let q := n / d in
  let r := n mod d in
  if 2 * r <? d then q
  else if d <? 2 * r then q + 1
  else if Z.even q then q else q + 1.

Definition _calculate_reading_time (content : string) : Z :=
  let words := Z.of_nat (length (split content)) in
  let reading_time := Z.max 1 (round_div words 200) in
  reading_time.

(** A word of [split] holds no whitespace. *)
Definition spaceless (w : string) : Prop :=
  Forall (fun c => is_space c = false) (String.list_ascii_of_string w).

(** A text of [n] words, for the examples. *)
Fixpoint words_text (n : nat) : string :=
  match n with
  | O => ""
  | S k => "word " +:+ words_text k
  end.

Section BlogMethods.
Context `{ObjectIdText}.

(** *** Article management *)

(** [created], [published] and [updated] are the readings of
    [datetime.utcnow()], in the order of the dict literal. *)
Definition create_article (fresh : oid) (created published updated : Z)
           (title content author_id category : string) (tags : list string)
           (status : string) : M (option string) :=
  try_except
    (let article_data :=
       {| Article._id := fresh;
          Article.title := title;
          Article.content := content;
          Article.author_id := author_id;
          Article.category := category;
          Article.tags := tags;
          Article.status := status;
          Article.created_date := created;
          Article.published_date :=
            if bool_decide (status = "published") then Some published else None;
          Article.updated_date := updated;
          Article.view_count := 0;
          Article.like_count := 0;
          Article.comment_count := 0;
          Article.likes := [];
          Article.featured := false;
          Article.meta_description :=
            if (160 <? String.length content)%nat
            then String.substring 0 160 content +:+ "..."
            else content;
          Article.reading_time := _calculate_reading_time content |} in
     let* inserted_id := articles_insert_one article_data in
     ret (Some (str_of_oid inserted_id)))
    any_exception
    (ret None).

Definition like_article (article_id user_id : string) : M bool :=
  try_except
    (let* o := lift (ObjectId_str article_id) in
     let* article := articles_find_one o in
     match article with
     | None => ret false
     | Some a =>
         let likes := Article.likes a in
         if bool_decide (user_id ∈ likes) then
           let* modified_count := articles_update_one o (pull_like user_id) in
           ret (modified_count >? 0)
         else
           let* modified_count := articles_update_one o (push_like user_id) in
           ret (modified_count >? 0)
     end)
    any_exception
    (ret false).

(** *** Comment management *)

(** The comment dicts of the list are shared objects: [comment_map] and
    the [replies] lists hold references to them, and a reference is the
    position of the comment in the list. [replies] gives, by position,
    the [replies] list of each comment. *)
Record organized := {
  root_comments : list nat;
  replies : list (list nat)
}.

(** [if comment["parent_id"]]: [None] and [""] are falsy. *)
Definition parent_ref (c : Comment.t) : option string :=
  match Comment.parent_id c with
  | Some p => if bool_decide (p = "") then None else Some p
  | None => None
  end.

(** [for comment in comments]: each comment with its reference. *)
Definition indexed (comments : list Comment.t) : list (nat * Comment.t) :=
  imap (fun i c => (i, c)) comments.

(** The first loop: [comment_map[str(comment["_id"])] = comment]. *)
Definition comment_map_of (comments : list Comment.t) : gmap string nat :=
  fold_left
    (fun m ic => <[str_of_oid (Comment._id (snd ic)) := fst ic]> m)
    (indexed comments)
    ∅.

(** One round of the second loop. *)
Definition place (comment_map : gmap string nat) (acc : organized)
           (ic : nat * Comment.t) : organized :=
  match parent_ref (snd ic) with
  | Some p =>
      match comment_map !! p with
      | Some parent =>
          {| root_comments := root_comments acc;
             replies := alter (fun r => r ++ [fst ic]) parent (replies acc) |}
      | None => acc
      end
  | None =>
      {| root_comments := root_comments acc ++ [fst ic];
         replies := replies acc |}
  end.

Definition _organize_comments (comments : list Comment.t) : organized :=
  let comment_map := comment_map_of comments in
  fold_left (place comment_map)
    (indexed comments)
    {| root_comments := []; replies := replicate (length comments) [] |}.

(** The references of the comments without a parent, in the order of the
    list. *)
Definition roots_of (l : list (nat * Comment.t)) : list nat :=
  fst <$> filter (fun ic => parent_ref (snd ic) = None) l.

(** The references of the comments whose parent text the map [m] files
    under [j], in the order of the list. *)
Definition children_of (m : gmap string nat) (j : nat)
           (l : list (nat * Comment.t)) : list nat :=
  fst <$> filter
            (fun ic => parent_ref (snd ic) ≫= (fun p => m !! p) = Some j) l.

(** The reference of the comment that [i] was attached to, if any. *)
Definition parent_of (comments : list Comment.t) (i : nat) : option nat :=
  c ← comments !! i;
  p ← parent_ref c;
  comment_map_of comments !! p.

(** The comment [i] is [k] replies below a root. *)
Fixpoint level (comments : list Comment.t) (k : nat) (i : nat) : Prop :=
  match k with
  | O => exists c, comments !! i = Some c /\ parent_ref c = None
  | S k' => exists j, parent_of comments i = Some j /\ level comments k' j
  end.

(** The returned list read as trees, down to [depth] levels of replies. *)
Inductive tree :=
| Node (c : Comment.t) (rs : list tree).

Fixpoint tree_at (depth : nat) (comments : list Comment.t)
         (reps : list (list nat)) (i : nat) : option tree :=
  match depth with
  | O => None
  | S depth' =>
      c ← comments !! i;
      rs ← reps !! i;
      ts ← mapM (tree_at depth' comments reps) rs;
      Some (Node c ts)
  end.

Definition forest (comments : list Comment.t) (r : organized)
  : option (list tree) :=
  mapM (tree_at (length comments) comments (replies r)) (root_comments r).

(** *** Analytics *)

(** A result of [get_popular_articles]: the article, the added field and
    the joined author ([username] and [full_name] projected). *)
Record popular := {
  article : Article.t;
  popularity_score : Z;
  author : oid * string * string
}.

Definition in_window (date_threshold : Z) (a : Article.t) : bool :=
  bool_decide (Article.status a = "published")
  && match Article.published_date a with
     | Some d => date_threshold <=? d
     | None => false
     end.

Definition score (a : Article.t) : Z :=
  Article.view_count a * 1 + Article.like_count a * 3
  + Article.comment_count a * 2.

(** [{"$sort": {"popularity_score": -1}}]. *)
Definition by_score_desc (a b : Article.t) : Prop := score b <= score a.

#[global] Instance by_score_desc_dec a b : Decision (by_score_desc a b).
Proof. unfold by_score_desc. apply _. Defined.

(** [$lookup] with [$toObjectId], then [$unwind]: the article is joined
    with the user whose [_id] is the converted [author_id] ([_id] is
    unique) and dropped when there is none; the conversion fails on a
    string that is not an ObjectId. *)
Definition join_author (us : list User.t) (a : Article.t)
  : result (list popular) :=
  match oid_of_str (Article.author_id a) with
  | None => Raise OperationFailure
  | Some o =>
      match list_find (fun u => User._id u = o) us with
      | Some (_, u) =>
          Ok [{| article := a; popularity_score := score a;
                 author := (User._id u, User.username u, User.full_name u) |}]
      | None => Ok []
      end
  end.

Fixpoint join_authors (us : list User.t) (l : list Article.t)
  : result (list popular) :=
  match l with
  | [] => Ok []
  | a :: l' =>
      match join_author us a, join_authors us l' with
      | Ok x, Ok y => Ok (x ++ y)
      | Raise e, _ => Raise e
      | _, Raise e => Raise e
      end
  end.

(** The stored user that the author text of [a] names: the first one
    with that [_id]; and the result that the report has for [a] when
    there is one. *)
Definition author_of (us : list User.t) (a : Article.t) : option User.t :=
  oid_of_str (Article.author_id a)
    ≫= fun o => snd <$> list_find (fun u => User._id u = o) us.

Definition popular_row (us : list User.t) (a : Article.t) : option popular :=
  author_of us a
    ≫= fun u => Some {| article := a; popularity_score := score a;
                        author := (User._id u, User.username u,
                                   User.full_name u) |}.

(** The largest number the driver encodes (64 bits), and the datetimes of
    Python, from 0001-01-01 to the end of 9999, in milliseconds since the
    epoch. *)
Definition int64_max : Z := 9223372036854775807.
Definition datetime_min : Z := -62135596800000.
Definition datetime_max : Z := 253402300799999.

(** [now - timedelta(days=days)]: [timedelta] takes at most 999999999
    days, either way, and the difference has to be a datetime; otherwise
    it is an [OverflowError]. *)
Definition minus_days (now days : Z) : result Z :=
  if 999999999 <? Z.abs days then Raise OverflowError
  else
    let t := now - days * 86400000 in
    if (t <? datetime_min) || (datetime_max <? t) then Raise OverflowError
    else Ok t.

(** The pipeline of [get_popular_articles]: the driver encodes numbers of
    64 bits at most, and the server wants a positive [$limit]. *)
Definition aggregate_popular (date_threshold limit : Z) : M (list popular) :=
  fun s =>
    if (int64_max <? limit) || (limit <? - int64_max - 1)
    then (Raise OverflowError, s)
    else if limit <=? 0 then (Raise OperationFailure, s)
    else
      let matched := filter (fun a => in_window date_threshold a) (articles s) in
      let sorted := merge_sort by_score_desc matched in
      let limited := take (Z.to_nat limit) sorted in
      (join_authors (users s) limited, s).

Definition get_popular_articles (utcnow days limit : Z) : M (list popular) :=
  try_except
    (let* date_threshold := lift (minus_days utcnow days) in
     let* articles := aggregate_popular date_threshold limit in
     ret articles)
    any_exception
    (ret []).

End BlogMethods.

End BlogSystem.

(* ===================================================================== *)
(** ** Sample data *)
(* ===================================================================== *)

Module Demo.
Import Bson Mongo Py.

(** The text form of the [bson] package is used throughout. *)
#[local] Existing Instance hex_text.

Definition ahmed : oid := 0x64b7f0c2a1d3e4f5a6b7c8d9%N.
Definition ahmed_id : string := "64b7f0c2a1d3e4f5a6b7c8d9".
Definition sara : oid := 0x64b7f0c2a1d3e4f5a6b7c8da%N.
Definition sara_id : string := "64b7f0c2a1d3e4f5a6b7c8da".

(** *** Task management: the first steps of [main] *)

Definition tm_empty : TaskManager.db :=
  {| TaskManager.tasks := []; TaskManager.users := [] |}.

Definition tm_users : TaskManager.db :=
  snd (TaskManager.create_user sara 1001 "sara_pm" "sara@example.com"
         "Sara Ahmed"
         (snd (TaskManager.create_user ahmed 1000 "ahmed_dev"
                 "ahmed@example.com" "Ahmed Mohamed" tm_empty))).

Definition ui_task : TaskManager.new_task :=
  {| TaskManager.nt_user_id := ahmed_id;
     TaskManager.nt_fresh := 0x64b7f0c2a1d3e4f5a6b7c901%N;
     TaskManager.nt_created := 2000;
     TaskManager.nt_updated := 2001;
     TaskManager.nt_title := "Develop UI";
     TaskManager.nt_description := "Create UI for the new app";
     TaskManager.nt_priority := "high";
     TaskManager.nt_due_date := VDate 9000 |}.

Definition test_task : TaskManager.new_task :=
  {| TaskManager.nt_user_id := ahmed_id;
     TaskManager.nt_fresh := 0x64b7f0c2a1d3e4f5a6b7c902%N;
     TaskManager.nt_created := 3000;
     TaskManager.nt_updated := 3001;
     TaskManager.nt_title := "Unit testing";
     TaskManager.nt_description := "Write unit tests for new features";
     TaskManager.nt_priority := "urgent";
     TaskManager.nt_due_date := VNull |}.

Definition review_task : TaskManager.new_task :=
  {| TaskManager.nt_user_id := sara_id;
     TaskManager.nt_fresh := 0x64b7f0c2a1d3e4f5a6b7c903%N;
     TaskManager.nt_created := 2500;
     TaskManager.nt_updated := 2501;
     TaskManager.nt_title := "Review requirements";
     TaskManager.nt_description := "Review and update project requirements";
     TaskManager.nt_priority := "medium";
     TaskManager.nt_due_date := VDate 7000 |}.

Definition tm_tasks : TaskManager.db :=
  snd (TaskManager.create_tasks [ui_task; review_task; test_task] tm_users).

(** *** Blog: one article and four comments *)

Definition post : BlogSystem.Article.t :=
  {| BlogSystem.Article._id := 0x64b7f0c2a1d3e4f5a6b7ca01%N;
     BlogSystem.Article.title := "Introduction to MongoDB";
     BlogSystem.Article.content := "MongoDB is a popular NoSQL database";
     BlogSystem.Article.author_id := ahmed_id;
     BlogSystem.Article.category := "Technology";
     BlogSystem.Article.tags := ["mongodb"; "database"];
     BlogSystem.Article.status := "published";
     BlogSystem.Article.created_date := 1000;
     BlogSystem.Article.published_date := Some 1000;
     BlogSystem.Article.updated_date := 1000;
     BlogSystem.Article.view_count := 10;
     BlogSystem.Article.like_count := 2;
     BlogSystem.Article.comment_count := 1;
     BlogSystem.Article.likes := ["u"; "v"];
     BlogSystem.Article.featured := false;
     BlogSystem.Article.meta_description := "MongoDB is a popular NoSQL database";
     BlogSystem.Article.reading_time := 1 |}.

Definition post_id : string := "64b7f0c2a1d3e4f5a6b7ca01".

Definition author_ahmed : BlogSystem.User.t :=
  {| BlogSystem.User._id := ahmed;
     BlogSystem.User.username := "ahmed_dev";
     BlogSystem.User.email := "ahmed@example.com";
     BlogSystem.User.full_name := "Ahmed Mohamed";
     BlogSystem.User.bio := "";
     BlogSystem.User.article_count := 1;
     BlogSystem.User.comment_count := 0 |}.

Definition blog : BlogSystem.db :=
  {| BlogSystem.users := [author_ahmed];
     BlogSystem.articles := [post];
     BlogSystem.comments := [] |}.

(** The same article with a like list in which a user occurs twice. *)
Definition post_twice : BlogSystem.Article.t :=
  BlogSystem.Article.with_likes post ["u"; "u"] 2.

Definition blog_twice : BlogSystem.db :=
  {| BlogSystem.users := [author_ahmed];
     BlogSystem.articles := [post_twice];
     BlogSystem.comments := [] |}.

Definition comment (id : oid) (parent : option string) : BlogSystem.Comment.t :=
  {| BlogSystem.Comment._id := id;
     BlogSystem.Comment.article_id := post_id;
     BlogSystem.Comment.author_id := sara_id;
     BlogSystem.Comment.content := "Great article!";
     BlogSystem.Comment.parent_id := parent;
     BlogSystem.Comment.created_date := 1500;
     BlogSystem.Comment.updated_date := 1500;
     BlogSystem.Comment.like_count := 0;
     BlogSystem.Comment.likes := [];
     BlogSystem.Comment.is_approved := true |}.

Definition comment_a := comment 0xa1%N None.
Definition comment_b := comment 0xb2%N (Some "0000000000000000000000a1").
Definition comment_c := comment 0xc3%N (Some "0000000000000000000000b2").
Definition comment_d := comment 0xd4%N (Some "0000000000000000000000ff").

End Demo.

(* ===================================================================== *)
(** ** Facts about the collection operations *)
(* ===================================================================== *)

Module MongoFacts.
Import Bson Mongo.

Lemma find_one_Some q c d :
  find_one q c = Some d <-> exists i, list_find (fun e => matches q e) c = Some (i, d).
Proof.
  unfold find_one. split.
  - intros Hf. destruct (list_find _ c) as [[i e]|] eqn:E; simplify_eq/=. eauto.
  - intros [i ->]. done.
Qed.


(** A query only looks at the fields it names. *)
Lemma matches_same_fields (q : query) (d d' : doc) :
  (forall f c, (f, c) ∈ q -> d !! f = d' !! f) -> matches q d = matches q d'.
Proof.
  unfold matches. induction q as [|[f c] q IH]; intros Hq; simpl; [done|].
  rewrite (Hq f c) by left. f_equal. apply IH. intros f' c' Hin.
  apply (Hq f' c'). by right.
Qed.

Lemma matches_insert_other (q : query) (d : doc) f v :
  (forall c, (f, c) ∉ q) -> matches q (<[f := v]> d) = matches q d.
Proof.
  intros Hf. apply matches_same_fields. intros g c Hin.
  apply lookup_insert_ne. intros ->. by apply (Hf c).
Qed.

(** Replacing the first match by a document that still matches keeps it
    the first match. *)
Lemma list_find_replace (q : query) (c : collection) i d d' :
  list_find (fun e => matches q e) c = Some (i, d) ->
  matches q d' = true ->
  list_find (fun e => matches q e) (<[i := d']> c) = Some (i, d').
Proof.
  intros (Hi & Hd & Hleast)%list_find_Some Hd'.
  apply list_find_insert_Some. right; left.
  split_and!; eauto using lookup_lt_Some; try by apply Is_true_true.
Qed.

(** Replacing the first match of one query leaves the first match of a
    query it never satisfied, before or after, where it was. *)
Lemma list_find_replace_other (q q' : query) (c : collection) i d d' :
  c !! i = Some d ->
  matches q' d = false -> matches q' d' = false ->
  list_find (fun e => matches q' e) (<[i := d']> c)
  = list_find (fun e => matches q' e) c.
Proof.
  intros Hi Hd Hd'.
  destruct (list_find (fun e => matches q' e) c) as [[j e]|] eqn:E.
  - pose proof E as (Hj & He & Hleast)%list_find_Some.
    assert (i <> j) by (intros ->; rewrite Hi in Hj; simplify_eq; by rewrite Hd in He).
    apply list_find_Some. rewrite list_lookup_insert_ne by done.
    split_and!; [done..|].
    intros k y [(-> & -> & ?)|[? ?]]%list_lookup_insert_Some ?.
    + intros Hc. by rewrite Hd' in Hc.
    + eauto.
  - apply list_find_None. apply list_find_None in E.
    apply Forall_forall. intros x Hx.
    apply list_elem_of_lookup in Hx as [k Hk].
    apply list_lookup_insert_Some in Hk as [(-> & -> & ?)|[? Hk]].
    + intros Hc. by rewrite Hd' in Hc.
    + eapply Forall_forall in E; [exact E|]. by eapply list_elem_of_lookup_2.
Qed.




(** An update that leaves an indexed field as it is adds no key. *)
Lemma new_keys_same f (d d' : doc) :
  d' !! f = d !! f -> new_keys f d d' = [].
Proof.
  intros Heq. unfold new_keys.
  replace (index_keys f d') with (index_keys f d)
    by (unfold index_keys, index_key; by rewrite Heq).
  assert (Hsub : forall l l' : list (option value),
             l ⊆ l' -> filter (fun k => k ∉ l') l = []).
  { intros l l'. induction l as [|k l IH]; intros Hsub; [done|].
    rewrite filter_cons_False.
    - apply IH. intros x Hx. apply Hsub. by right.
    - intros Hk. apply Hk, Hsub. by left. }
  by apply Hsub.
Qed.

(** The server has nothing against an update that leaves the indexed
    fields as they are. *)
Lemma update_violates_same unique i (d d' : doc) (c : collection) :
  Forall (fun f => d' !! f = d !! f) unique ->
  update_violates unique i d d' c = false.
Proof.
  intros Hall. unfold update_violates. apply not_true_is_false.
  intros (f & Hf & Hv)%existsb_exists. apply list_elem_of_In in Hf.
  eapply Forall_forall in Hall; [|exact Hf].
  by rewrite (new_keys_same f d d' Hall) in Hv.
Qed.

Lemma apply_update_keeps_id u (d d' : doc) :
  apply_update u d = Ok d' -> d' !! "_id" = d !! "_id".
Proof.
  unfold apply_update. destruct (updated u d) as [x|e]; [|done].
  case_bool_decide; intros; by simplify_eq.
Qed.

Lemma update_one_inc unique (q : query) f delta (c : collection) i d n :
  f <> "_id" -> f ∉ unique ->
  list_find (fun e => matches q e) c = Some (i, d) ->
  d !! f = Some (VInt n) ->
  exists r, update_one unique q (UInc f delta) c
            = Ok (<[i := <[f := VInt (n + delta)]> d]> c, r).
Proof.
  intros Hid Hun Hf Hn. unfold update_one, apply_update, updated.
  rewrite Hf, Hn.
  rewrite bool_decide_eq_true_2 by (by rewrite lookup_insert_ne).
  rewrite update_violates_same; [eauto|].
  apply Forall_forall. intros g Hg. rewrite lookup_insert_ne; [done|].
  by intros ->.
Qed.

Lemma update_one_None unique (q : query) u (c : collection) :
  list_find (fun e => matches q e) c = None ->
  update_one unique q u c
  = Ok (c, {| matched_count := 0; modified_count := 0 |}).
Proof. intros Hf. unfold update_one. by rewrite Hf. Qed.

End MongoFacts.

(* ===================================================================== *)
(** ** TaskManager: the task counter of a user *)
(* ===================================================================== *)

Module TaskCounters.
Import Bson Mongo Py TaskManager MongoFacts.

#[local] Arguments matches : simpl never.
#[local] Arguments find_one : simpl never.

Section CounterFacts.
Context `{ObjectIdText}.

(** A creation that returns an identifier is an accepted insert followed
    by an update of the [users] collection. *)
Lemma create_task_Some fresh created updated title description user_id
      priority due_date s s' i :
  create_task fresh created updated title description user_id priority
    due_date s = (Ok (Some i), s') ->
  exists d s1 o r,
    c_insert_one Tasks fresh d s = (Ok i, s1)
    /\ oid_of_str user_id = Some o
    /\ c_update_one Users [("_id", CEq (VOid o))] (UInc "task_count" 1) s1
       = (Ok r, s').
Proof.
  unfold create_task, try_except, bind, c_count_documents, lift,
    ObjectId_str, ret, raise.
  intros Hrun.
  destruct (c_insert_one Tasks fresh _ s) as [[i0|e] s1] eqn:Hins;
    simpl in Hrun; [|simplify_eq].
  destruct (oid_of_str user_id) as [o|] eqn:Ho; simpl in Hrun; [|simplify_eq].
  destruct (c_update_one Users _ _ s1) as [[r|e] s2] eqn:Hup; simpl in Hrun;
    simplify_eq.
  eauto 10.
Qed.

Lemma c_insert_one_tasks fresh d s i s1 :
  c_insert_one Tasks fresh d s = (Ok i, s1) ->
  users s1 = users s /\ exists d', tasks s1 = tasks s ++ [d'].
Proof.
  unfold c_insert_one, insert_one; simpl.
  match goal with |- context [if ?b then _ else _] => destruct b end;
    intros; simplify_eq/=. eauto.
Qed.

Lemma task_count_of_Some o s n :
  task_count_of o s = Some (VInt n) <->
  exists i u, list_find (fun e => matches [("_id", CEq (VOid o))] e) (users s)
              = Some (i, u)
              /\ u !! "task_count" = Some (VInt n).
Proof.
  unfold task_count_of, find_one. split.
  - destruct (list_find _ _) as [[i u]|]; simpl; [eauto|done].
  - intros (i & u & -> & Hu). done.
Qed.

(** [$inc] on the counter of the user [o]: exactly one user document
    changes, in its [task_count] field, by [delta]. *)
Lemma inc_task_count o delta s n :
  task_count_of o s = Some (VInt n) ->
  exists r s',
    c_update_one Users [("_id", CEq (VOid o))] (UInc "task_count" delta) s
    = (Ok r, s')
    /\ tasks s' = tasks s
    /\ task_count_of o s' = Some (VInt (n + delta))
    /\ exists i u, users s !! i = Some u
                   /\ users s' = <[i := <["task_count" := VInt (n + delta)]> u]>
                                   (users s).
Proof.
  intros (i & u & Hfind & Hn)%task_count_of_Some.
  unfold c_update_one; simpl.
  assert (Hnot : "task_count" ∉ ["email"; "username"]).
  { intros Hin. repeat (apply elem_of_cons in Hin as [Hin|Hin]; [done|]).
    by apply elem_of_nil in Hin. }
  destruct (update_one_inc ["email"; "username"] _ "task_count" delta _ _ _ _
              ltac:(done) Hnot Hfind Hn) as [r' Hr'].
  rewrite Hr'. eexists _, _. split; [done|]. simpl. split; [done|]. split.
  - apply task_count_of_Some. exists i, (<["task_count" := VInt (n + delta)]> u).
    split; [|by rewrite lookup_insert_eq]. simpl.
    apply (list_find_replace _ _ _ u); [done|].
    rewrite matches_insert_other.
    + apply list_find_Some in Hfind as (_ & Hm & _). by apply Is_true_true.
    + intros c Hc. apply list_elem_of_singleton in Hc. simplify_eq.
  - exists i, u. split; [|done]. by apply list_find_Some in Hfind as (? & _).
Qed.

Lemma task_count_of_same_users o s s' :
  users s' = users s -> task_count_of o s' = task_count_of o s.
Proof. unfold task_count_of. by intros ->. Qed.

(** Creation: the counter of the owner goes up by one, in an update that
    follows the insert. *)
Lemma create_task_counter fresh created updated title description user_id
      priority due_date s s' i o n :
  create_task fresh created updated title description user_id priority
    due_date s = (Ok (Some i), s') ->
  oid_of_str user_id = Some o ->
  task_count_of o s = Some (VInt n) ->
  (exists d s1 r,
      c_insert_one Tasks fresh d s = (Ok i, s1)
      /\ task_count_of o s1 = Some (VInt n)
      /\ c_update_one Users [("_id", CEq (VOid o))] (UInc "task_count" 1) s1
         = (Ok r, s'))
  /\ task_count_of o s' = Some (VInt (n + 1))
  /\ exists k u, users s !! k = Some u
                 /\ users s' = <[k := <["task_count" := VInt (n + 1)]> u]>
                                 (users s).
Proof.
  intros (d & s1 & o' & r & Hins & Ho' & Hup)%create_task_Some Ho Hn.
  assert (o' = o) as -> by congruence.
  destruct (c_insert_one_tasks _ _ _ _ _ Hins) as [Hus _].
  assert (Hn1 : task_count_of o s1 = Some (VInt n))
    by (by rewrite (task_count_of_same_users o s s1)).
  destruct (inc_task_count o 1 s1 n Hn1) as (r' & s2 & Hup' & _ & Hcount & Hdoc).
  rewrite Hup in Hup'. simplify_eq. split; [eauto 10|]. split; [done|].
  by rewrite Hus in Hdoc.
Qed.


Lemma task_query_ok task_identifier s :
  exists q, task_query task_identifier s = (Ok q, s)
            /\ ((is_valid task_identifier = true
                 /\ exists o, ObjectId_given task_identifier = Ok o
                              /\ q = [("_id", CEq (VOid o))])
                \/ (is_valid task_identifier = false
                    /\ q = [("task_id", CEq task_identifier)])).
Proof.
  unfold task_query. destruct (is_valid task_identifier) eqn:Hv.
  - unfold is_valid in Hv. destruct (negb _); [done|].
    unfold bind, lift. destruct (ObjectId_given task_identifier) as [o|]; [|done].
    eexists. split; [done|]. left. eauto.
  - eexists. split; [done|]. right. eauto.
Qed.

Lemma get_task_Some task_identifier s t s0 :
  get_task task_identifier s = (Ok (Some t), s0) ->
  exists q i, task_query task_identifier s = (Ok q, s)
              /\ list_find (fun e => matches q e) (tasks s) = Some (i, t).
Proof.
  unfold get_task, bind. destruct (task_query_ok task_identifier s) as (q & -> & _).
  unfold c_find_one; simpl. intros Hf. simplify_eq.
  match goal with Hq : find_one _ _ = Some _ |- _ =>
    apply find_one_Some in Hq as [i Hi] end.
  eauto.
Qed.

(** Deletion of an existing task: the task goes, then the counter of its
    owner goes down by one. *)
Lemma delete_task_counter gen task_identifier s t v o n :
  get_task task_identifier s = (Ok (Some t), s) ->
  t !! "user_id" = Some v ->
  ObjectId gen v = Ok o ->
  task_count_of o s = Some (VInt n) ->
  exists s',
    delete_task gen task_identifier s = (Ok true, s')
    /\ (exists i, tasks s !! i = Some t /\ tasks s' = delete i (tasks s))
    /\ task_count_of o s' = Some (VInt (n - 1))
    /\ exists k u, users s !! k = Some u
                   /\ users s' = <[k := <["task_count" := VInt (n - 1)]> u]>
                                   (users s).
Proof.
  intros Hget Hv Ho Hn.
  destruct (get_task_Some _ _ _ _ Hget) as (q & i & Hq & Hfind).
  unfold delete_task, bind. rewrite Hget. simpl.
  rewrite bool_decide_eq_false_2
    by (intros ->; by rewrite lookup_empty in Hv).
  rewrite Hq. unfold c_delete_one, delete_one; simpl. rewrite Hfind. simpl.
  rewrite Hv. unfold ret at 1. unfold lift. rewrite Ho. unfold ret at 1.
  set (s1 := set_coll Tasks (delete i (tasks s)) s).
  assert (Hn1 : task_count_of o s1 = Some (VInt n)) by done.
  destruct (inc_task_count o (-1) s1 n Hn1)
    as (r & s2 & Hup & Hts & Hcount & Hdoc).
  change {| tasks := delete i (tasks s); users := users s |} with s1.
  rewrite Hup. replace (n - 1) with (n + -1) by lia.
  exists s2. split; [done|]. split; [|split; [done|done]].
  exists i. rewrite Hts. split; [|done].
  by apply list_find_Some in Hfind as (? & _).
Qed.

(** A creation that returns [None] has left the users as they were. *)
Lemma create_task_None fresh created updated title description user_id
      priority due_date s s' :
  create_task fresh created updated title description user_id priority
    due_date s = (Ok None, s') ->
  users s' = users s.
Proof.
  unfold create_task, try_except, bind, c_count_documents, lift,
    ObjectId_str, ret, raise.
  intros Hrun.
  destruct (c_insert_one Tasks fresh _ s) as [[i0|e] s1] eqn:Hins;
    simpl in Hrun.
  - apply c_insert_one_tasks in Hins as [Hus _].
    destruct (oid_of_str user_id) as [o|]; simpl in Hrun; [|by simplify_eq].
    unfold c_update_one in Hrun.
    destruct (update_one _ _ _ (get_coll Users s1)) as [[us r]|e];
      simpl in Hrun;
      by simplify_eq.
  - unfold c_insert_one in Hins.
    destruct (insert_one _ _ _ _) as [[c i]|e']; by simplify_eq.
Qed.

Lemma matches_id_scalar o (d : doc) :
  scalar_id d = true ->
  matches [("_id", CEq (VOid o))] d = true <-> d !! "_id" = Some (VOid o).
Proof.
  unfold scalar_id, matches, cond_holds, field_values. simpl.
  rewrite andb_true_r, orb_false_r.
  destruct (d !! "_id") as [v|] eqn:E; simpl; [|split; congruence].
  destruct v; simpl; rewrite ?orb_false_r, ?bool_decide_eq_true;
    try (split; congruence); done.
Qed.

Lemma scalar_id_same (u u' : doc) :
  u' !! "_id" = u !! "_id" -> scalar_id u' = scalar_id u.
Proof. unfold scalar_id. by intros ->. Qed.

(** What an accepted [$inc] on [users] can have done. *)
Lemma inc_keeps_id (u u' : doc) delta :
  apply_update (UInc "task_count" delta) u = Ok u' ->
  u' !! "_id" = u !! "_id".
Proof. apply apply_update_keeps_id. Qed.

Lemma c_update_one_inc_Ok (q : query) delta s r s' :
  c_update_one Users q (UInc "task_count" delta) s = (Ok r, s') ->
  (list_find (fun e => matches q e) (users s) = None /\ s' = s)
  \/ exists k u u',
      list_find (fun e => matches q e) (users s) = Some (k, u)
      /\ u' !! "_id" = u !! "_id"
      /\ s' = {| tasks := tasks s; users := <[k := u']> (users s) |}.
Proof.
  unfold c_update_one, update_one. cbn [get_coll set_coll].
  destruct (list_find _ (users s)) as [[k u]|] eqn:Hfind.
  - destruct (apply_update (UInc "task_count" delta) u) as [u'|e] eqn:Hu;
      [|intros; simplify_eq].
    destruct (update_violates _ _ _ _ _); intros; simplify_eq.
    right. exists k, u, u'. split; [done|]. split; [|done].
    by eapply inc_keeps_id.
  - intros; simplify_eq. left. split; [done|]. by destruct s.
Qed.

(** [$inc] on the counter of another user leaves the counter of [o]. *)
Lemma inc_other_user o o' delta s r s' :
  ids_scalar (users s) ->
  o' <> o ->
  c_update_one Users [("_id", CEq (VOid o'))] (UInc "task_count" delta) s
  = (Ok r, s') ->
  task_count_of o s' = task_count_of o s /\ ids_scalar (users s').
Proof.
  intros Hwf Hne [[_ ->]|(k & u & u' & Hfind & Hid & ->)]%c_update_one_inc_Ok;
    [done|].
  pose proof Hfind as (Hk & Hm & _)%list_find_Some.
  assert (Hsc : scalar_id u = true)
    by (eapply Forall_lookup_1 in Hwf; [exact Hwf|exact Hk]).
  assert (Hsc' : scalar_id u' = true) by (by rewrite (scalar_id_same u u')).
  apply Is_true_true, matches_id_scalar in Hm; [|done].
  split.
  - unfold task_count_of, find_one. cbn [users].
    rewrite (list_find_replace_other [("_id", CEq (VOid o'))] _ _ k u u');
      [done|done|..].
    + apply not_true_is_false. rewrite matches_id_scalar by done. congruence.
    + apply not_true_is_false. rewrite matches_id_scalar by done. congruence.
  - unfold ids_scalar. cbn [users]. by apply Forall_insert.
Qed.

Lemma inc_keeps_ids_scalar o delta s r s' :
  ids_scalar (users s) ->
  c_update_one Users [("_id", CEq (VOid o))] (UInc "task_count" delta) s
  = (Ok r, s') ->
  ids_scalar (users s').
Proof.
  intros Hwf [[_ ->]|(k & u & u' & Hfind & Hid & ->)]%c_update_one_inc_Ok;
    [done|].
  apply list_find_Some in Hfind as (Hk & _ & _).
  unfold ids_scalar. cbn [users]. apply Forall_insert; [done|].
  rewrite (scalar_id_same u u') by done.
  eapply Forall_lookup_1 in Hwf; [apply Hwf|exact Hk].
Qed.

(** Creations in a row, for any users: the counter of [o] counts the
    calls made for [o] that returned an identifier. *)
Lemma create_tasks_counter o calls :
  forall s n rs s',
    ids_scalar (users s) ->
    task_count_of o s = Some (VInt n) ->
    create_tasks calls s = (Ok rs, s') ->
    task_count_of o s'
    = Some (VInt (n + Z.of_nat (created_for o calls rs))).
Proof.
  induction calls as [|c calls IH]; intros s n rs s' Hwf Hn Hrun.
  - simpl in Hrun. unfold ret in Hrun. simplify_eq. simpl.
    by rewrite Z.add_0_r.
  - simpl in Hrun. unfold bind at 1 in Hrun.
    destruct (create_task _ _ _ _ _ _ _ _ s) as [[r|e] s1] eqn:Hc; [|done].
    unfold bind at 1 in Hrun.
    destruct (create_tasks calls s1) as [[rs'|e] s2] eqn:Hcs; [|done].
    unfold ret in Hrun. simplify_eq.
    destruct r as [i|].
    + pose proof Hc as (d & s0 & o' & r & Hins & Ho' & Hup)%create_task_Some.
      destruct (c_insert_one_tasks _ _ _ _ _ Hins) as [Hus _].
      assert (Hwf0 : ids_scalar (users s0)) by (by rewrite Hus).
      simpl. rewrite Ho'. destruct (decide (o' = o)) as [->|Hne].
      * rewrite bool_decide_eq_true_2 by done.
        destruct (create_task_counter _ _ _ _ _ _ _ _ _ _ _ _ _ Hc Ho' Hn)
          as (_ & Hn1 & _).
        rewrite (IH _ _ _ _ (inc_keeps_ids_scalar _ _ _ _ _ Hwf0 Hup) Hn1 Hcs).
        f_equal. f_equal. lia.
      * rewrite bool_decide_eq_false_2 by congruence.
        destruct (inc_other_user o o' 1 s0 r s1 Hwf0 Hne Hup) as [Hsame Hwf1].
        rewrite (task_count_of_same_users o s s0 Hus) in Hsame.
        rewrite Hn in Hsame.
        rewrite (IH _ _ _ _ Hwf1 Hsame Hcs). done.
    + apply create_task_None in Hc.
      assert (Hwf1 : ids_scalar (users s1)) by (by rewrite Hc).
      assert (Hn1 : task_count_of o s1 = Some (VInt n))
        by (by rewrite (task_count_of_same_users o s s1 Hc)).
      simpl. by rewrite (IH _ _ _ _ Hwf1 Hn1 Hcs).
Qed.

(** When every call is made for [o] and returns an identifier, all of
    them count. *)
Lemma created_for_all o calls rs :
  length rs = length calls ->
  Forall (fun c => oid_of_str (nt_user_id c) = Some o) calls ->
  Forall is_Some rs ->
  created_for o calls rs = length calls.
Proof.
  revert rs. induction calls as [|c calls IH]; intros rs Hlen Hfor Hall;
    [done|].
  destruct rs as [|r rs]; [done|].
  apply Forall_cons in Hfor as [Hc Hfor].
  apply Forall_cons in Hall as [[i ->] Hall]. simpl.
  rewrite bool_decide_eq_true_2 by done. simpl in Hlen.
  rewrite IH by (done || lia). done.
Qed.

Lemma create_tasks_length calls :
  forall s rs s', create_tasks calls s = (Ok rs, s') -> length rs = length calls.
Proof.
  induction calls as [|c calls IH]; intros s rs s' Hrun; simpl in Hrun.
  - unfold ret in Hrun. by simplify_eq.
  - unfold bind at 1 in Hrun.
    destruct (create_task _ _ _ _ _ _ _ _ s) as [[r|e] s1]; [|done].
    unfold bind at 1 in Hrun.
    destruct (create_tasks calls s1) as [[rs'|e] s2] eqn:Hcs; [|done].
    unfold ret in Hrun. simplify_eq. simpl. f_equal. by eapply IH.
Qed.

(** Claim C1. A creation that returns an identifier inserts the task and
    then, in a separate update of [users], raises the [task_count] of the
    owner by exactly one: after the insert the counter still has its old
    value, after the update it is one more, and no other user document has
    changed. The deletion of an existing task removes the task and then
    lowers the [task_count] of its owner by exactly one. Hence, in a run
    of creations for any users, the counter of a user grows by the number
    of calls made for that user that returned an identifier; and a user
    whose counter is 0 has the counter N after N creations, all for that
    user, that all return an identifier. *)
Theorem task_count_follows_tasks :
  (forall fresh created updated title description user_id priority due_date
          s s' i o n,
      create_task fresh created updated title description user_id priority
        due_date s = (Ok (Some i), s') ->
      oid_of_str user_id = Some o ->
      task_count_of o s = Some (VInt n) ->
      (exists d s1 r,
          c_insert_one Tasks fresh d s = (Ok i, s1)
          /\ task_count_of o s1 = Some (VInt n)
          /\ c_update_one Users [("_id", CEq (VOid o))] (UInc "task_count" 1)
               s1 = (Ok r, s'))
      /\ task_count_of o s' = Some (VInt (n + 1))
      /\ exists k u, users s !! k = Some u
                     /\ users s' = <[k := <["task_count" := VInt (n + 1)]> u]>
                                     (users s))
  /\ (forall gen task_identifier s t v o n,
         get_task task_identifier s = (Ok (Some t), s) ->
         t !! "user_id" = Some v ->
         ObjectId gen v = Ok o ->
         task_count_of o s = Some (VInt n) ->
         exists s',
           delete_task gen task_identifier s = (Ok true, s')
           /\ (exists i, tasks s !! i = Some t /\ tasks s' = delete i (tasks s))
           /\ task_count_of o s' = Some (VInt (n - 1))
           /\ exists k u, users s !! k = Some u
                          /\ users s'
                             = <[k := <["task_count" := VInt (n - 1)]> u]>
                                 (users s))
  /\ (forall o calls s rs s' n,
         ids_scalar (users s) ->
         task_count_of o s = Some (VInt n) ->
         create_tasks calls s = (Ok rs, s') ->
         task_count_of o s'
         = Some (VInt (n + Z.of_nat (created_for o calls rs))))
  /\ (forall o calls s rs s',
         ids_scalar (users s) ->
         task_count_of o s = Some (VInt 0) ->
         Forall (fun c => oid_of_str (nt_user_id c) = Some o) calls ->
         create_tasks calls s = (Ok rs, s') ->
         Forall is_Some rs ->
         task_count_of o s' = Some (VInt (Z.of_nat (length calls)))).
Proof.
  split; [|split; [|split]].
  - intros *. apply create_task_counter.
  - intros *. apply delete_task_counter.
  - intros * Hwf Hn Hrun. by apply (create_tasks_counter o calls s).
  - intros * Hwf Hn Hfor Hrun Hall.
    rewrite (create_tasks_counter o calls s 0 rs s' Hwf Hn Hrun).
    rewrite created_for_all; [done| |done|done].
    by eapply create_tasks_length.
Qed.

End CounterFacts.
End TaskCounters.

(* ===================================================================== *)
(** ** TaskManager: lookups, updates and deletions *)
(* ===================================================================== *)

Module TaskUpdates.
Import Bson Mongo Py TaskManager MongoFacts TaskCounters.
#[local] Arguments matches : simpl never.
#[local] Arguments find_one : simpl never.

Section UpdateFacts.
Context `{ObjectIdText}.

Lemma contains_at_spec s :
  contains_at s = true <-> "@"%char ∈ String.list_ascii_of_string s.
Proof.
  induction s as [|c s IH]; simpl.
  - split; [done|]. intros Hin. inversion Hin.
  - rewrite orb_true_iff, bool_decide_eq_true, IH, elem_of_cons.
    split; intros [Hc|Hc]; auto.
Qed.

(** Claim C5. The query of [get_user] is decided by the shape of the
    string, in this order: a valid ObjectId text is looked up by [_id];
    otherwise a string that contains ["@"] is looked up by [email];
    otherwise the string is looked up by [username]. *)
Theorem get_user_lookup_order (identifier : string) (s : db) :
  exists q,
    get_user_query identifier s = (Ok q, s)
    /\ get_user identifier s = (Ok (find_one q (users s)), s)
    /\ ((is_valid (VStr identifier) = true
         /\ exists o, ObjectId_str identifier = Ok o
                      /\ q = [("_id", CEq (VOid o))])
        \/ (is_valid (VStr identifier) = false
            /\ ("@"%char ∈ String.list_ascii_of_string identifier)
            /\ q = [("email", CEq (VStr identifier))])
        \/ (is_valid (VStr identifier) = false
            /\ ("@"%char ∉ String.list_ascii_of_string identifier)
            /\ q = [("username", CEq (VStr identifier))])).
Proof.
  unfold get_user, get_user_query.
  destruct (is_valid (VStr identifier)) eqn:Hv.
  - unfold is_valid in Hv. destruct (negb _); [done|]. simpl in Hv.
    unfold bind, lift. destruct (ObjectId_str identifier) as [o|]; [|done].
    eexists. split; [done|]. split; [done|]. left. eauto.
  - destruct (contains_at identifier) eqn:Hat.
    + eexists. split; [done|]. split; [done|]. right; left.
      split; [done|]. split; [|done]. by apply contains_at_spec.
    + eexists. split; [done|]. split; [done|]. right; right.
      split; [done|]. split; [|done]. rewrite <- contains_at_spec. congruence.
Qed.

(** Claim C7. When the identifier matches no task, [delete_task]
    returns [False] and the database, tasks and users alike, is what it
    was. *)
Theorem delete_task_not_found gen (task_identifier : value) (s : db) :
  get_task task_identifier s = (Ok None, s) ->
  delete_task gen task_identifier s = (Ok false, s).
Proof.
  intros Hget. unfold delete_task, bind. rewrite Hget. done.
Qed.

Lemma get_task_total task_identifier s :
  exists q, task_query task_identifier s = (Ok q, s)
            /\ get_task task_identifier s = (Ok (find_one q (tasks s)), s).
Proof.
  destruct (task_query_ok task_identifier s) as (q & Hq & _).
  exists q. split; [done|]. unfold get_task, bind. by rewrite Hq.
Qed.










End UpdateFacts.
End TaskUpdates.

(* ===================================================================== *)
(** ** TaskManager: the overdue report *)
(* ===================================================================== *)

Module TaskReports.
Import Bson Mongo Py TaskManager MongoFacts TaskCounters.
#[local] Arguments matches : simpl never.
#[local] Arguments find_one : simpl never.

Lemma elem_of_field_values (fv : option value) (w : value) :
  w ∈ field_values fv <->
  fv = Some w \/ exists l, fv = Some (VArr l) /\ w ∈ l.
Proof.
  unfold field_values. destruct fv as [v|].
  - destruct v; rewrite ?list_elem_of_singleton, ?elem_of_cons;
      try (split; [intros ->; by left|intros [?|(l & ? & ?)]; congruence]).
    split.
    + intros [->|Hw]; [by left|right; eauto].
    + intros [?|(l' & ? & ?)]; simplify_eq; auto.
  - split; [intros Hin; inversion Hin|intros [?|(l & ? & ?)]; congruence].
Qed.

Lemma lt_date_holds bound (d : doc) f :
  cond_holds (CLtDate bound) (d !! f) = true <->
  exists ms, holds d f (VDate ms) /\ ms < bound.
Proof.
  unfold cond_holds, holds. rewrite existsb_exists. split.
  - intros (w & Hw & Hlt). destruct w; try done. simpl in Hlt.
    exists ms. split; [|lia].
    by apply elem_of_field_values, list_elem_of_In.
  - intros (ms & Hh & Hlt). exists (VDate ms). split.
    + by apply list_elem_of_In, elem_of_field_values.
    + simpl. lia.
Qed.

Lemma nin_holds (vs : list value) (d : doc) f :
  cond_holds (CNin vs) (d !! f) = true <->
  forall v, v ∈ vs -> ~ holds d f v.
Proof.
  unfold cond_holds, holds, value_in. rewrite forallb_forall. split.
  - intros Hall v Hv Hh.
    apply elem_of_field_values, list_elem_of_In in Hh.
    specialize (Hall v Hh). apply negb_true_iff in Hall.
    assert (existsb (fun w => bool_decide (v = w)) vs = true); [|congruence].
    apply existsb_exists. exists v. split; [by apply list_elem_of_In|].
    by apply bool_decide_eq_true.
  - intros Hnone w Hw. apply negb_true_iff.
    destruct (existsb _ vs) eqn:E; [|done]. exfalso.
    apply existsb_exists in E as (v & Hv & Heq).
    apply bool_decide_eq_true in Heq. subst v.
    apply (Hnone w); [by apply list_elem_of_In|].
    by apply elem_of_field_values, list_elem_of_In.
Qed.

Lemma overdue_query now (t : doc) :
  matches [("due_date", CLtDate now);
           ("status", CNin [VStr "completed"; VStr "cancelled"])] t = true
  <-> overdue now t.
Proof.
  unfold matches, overdue. simpl. rewrite andb_true_r, andb_true_iff.
  change (existsb (is_date_before now) (field_values (t !! "due_date")))
    with (cond_holds (CLtDate now) (t !! "due_date")).
  change (forallb _ (field_values (t !! "status")))
    with (cond_holds (CNin [VStr "completed"; VStr "cancelled"]) (t !! "status")).
  rewrite lt_date_holds, nin_holds. split.
  - intros [Hd Hs]. split; [done|].
    split; apply Hs; auto using list_elem_of_here, list_elem_of_further.
  - intros (Hd & Hc1 & Hc2). split; [done|].
    intros v [->|[->|Hv%elem_of_nil]%elem_of_cons]%elem_of_cons; done.
Qed.

Section ReportFacts.
Context `{ObjectIdText}.

(** Claim C3. The overdue report returns, in the order of the
    collection, exactly the tasks that hold a due date strictly before
    [now] and whose status holds neither ["completed"] nor ["cancelled"].
    For a task with one due date and one status this reads: the date is
    before [now] and the status is not one of the two. A task due exactly
    at [now] is not returned, nor is a completed or cancelled task,
    whatever its due date. *)
Theorem overdue_tasks_exact (now : Z) (s : db) :
  exists l,
    get_overdue_tasks now s = (Ok l, s)
    /\ l ⊆+ tasks s
    /\ (forall t, t ∈ l <->
                  t ∈ tasks s
                  /\ (exists ms, holds t "due_date" (VDate ms) /\ ms < now)
                  /\ ~ holds t "status" (VStr "completed")
                  /\ ~ holds t "status" (VStr "cancelled"))
    /\ (forall t ms st,
           t !! "due_date" = Some (VDate ms) ->
           t !! "status" = Some (VStr st) ->
           (t ∈ l <->
            t ∈ tasks s /\ ms < now /\ st <> "completed" /\ st <> "cancelled"))
    /\ (forall t, t !! "due_date" = Some (VDate now) -> t ∉ l)
    /\ (forall t, t !! "status" = Some (VStr "completed")
                  \/ t !! "status" = Some (VStr "cancelled") -> t ∉ l).
Proof.
  exists (find [("due_date", CLtDate now);
                ("status", CNin [VStr "completed"; VStr "cancelled"])] (tasks s)).
  assert (Hin : forall t,
    t ∈ find [("due_date", CLtDate now);
              ("status", CNin [VStr "completed"; VStr "cancelled"])] (tasks s)
    <-> t ∈ tasks s /\ overdue now t).
  { intros t. unfold find. rewrite list_elem_of_filter, <- overdue_query.
    rewrite Is_true_true. tauto. }
  split; [done|]. split; [apply sublist_submseteq, sublist_filter|].
  split; [intros t; rewrite Hin; unfold overdue; tauto|].
  split; [|split].
  - intros t ms st Hdue Hst. rewrite Hin. unfold overdue, holds.
    rewrite Hdue, Hst. split.
    + intros (Ht & (ms' & [Hms|(l & Hl & _)] & Hlt) & Hc1 & Hc2); [|done].
      simplify_eq. split; [done|]. split; [done|].
      split; intros ->; [apply Hc1|apply Hc2]; by left.
    + intros (Ht & Hlt & Hc1 & Hc2). split; [done|]. split; [|split].
      * exists ms. split; [by left|done].
      * intros [?|(l & ? & _)]; congruence.
      * intros [?|(l & ? & _)]; congruence.
  - intros t Hdue [_ ((ms & [Hms|(l & Hl & _)] & Hlt) & _)]%Hin.
    + rewrite Hdue in Hms. simplify_eq. lia.
    + rewrite Hdue in Hl. done.
  - intros t Hst [_ (_ & Hc1 & Hc2)]%Hin.
    destruct Hst as [Hst|Hst]; [apply Hc1|apply Hc2]; by left.
Qed.

End ReportFacts.
End TaskReports.

(* ===================================================================== *)
(** ** BlogSystem: likes *)
(* ===================================================================== *)

Module BlogLikes.
Import Bson Py BlogSystem.

Lemma filter_ne_absent (u : string) (l : list string) :
  u ∉ l -> filter (fun x => x <> u) l = l.
Proof.
  induction l as [|x l IH]; intros Hu; [done|].
  apply not_elem_of_cons in Hu as [Hx Hl].
  rewrite filter_cons_True by congruence. by rewrite IH.
Qed.

Lemma filter_ne_once (u : string) (l : list string) :
  NoDup l -> u ∈ l -> filter (fun x => x <> u) l ++ [u] ≡ₚ l.
Proof.
  induction 1 as [|x l Hx Hnd IH]; intros Hu; [by apply elem_of_nil in Hu|].
  destruct (decide (x = u)) as [->|Hne].
  - rewrite filter_cons_False by (intros Hc; by apply Hc).
    rewrite filter_ne_absent by done.
    symmetry. apply Permutation_cons_append.
  - rewrite filter_cons_True by done. simpl. constructor. apply IH.
    apply elem_of_cons in Hu as [?|?]; [congruence|done].
Qed.

Lemma toggled_id user_id a : Article._id (toggled user_id a) = Article._id a.
Proof. unfold toggled. by destruct (bool_decide _). Qed.

Lemma toggled_changes user_id a : toggled user_id a <> a.
Proof.
  unfold toggled, pull_like, push_like. intros Heq.
  apply (f_equal Article.like_count) in Heq.
  destruct (bool_decide _); simpl in Heq; lia.
Qed.

Section LikeFacts.
Context `{ObjectIdText}.

Lemma like_article_found article_id user_id s o i a :
  oid_of_str article_id = Some o ->
  list_find (fun b => Article._id b = o) (articles s) = Some (i, a) ->
  like_article article_id user_id s
  = (Ok true, set_articles (<[i := toggled user_id a]> (articles s)) s).
Proof.
  intros Ho Hfind.
  unfold like_article, try_except, bind, lift, ObjectId_str.
  rewrite Ho. unfold ret at 1. unfold articles_find_one. rewrite Hfind. simpl.
  pose proof (toggled_changes user_id a) as Hch. unfold toggled in *.
  destruct (bool_decide (user_id ∈ Article.likes a));
    unfold articles_update_one; rewrite Hfind;
    rewrite bool_decide_eq_false_2 by done; done.
Qed.

Lemma find_after_toggle user_id (l : list Article.t) o i a :
  list_find (fun b => Article._id b = o) l = Some (i, a) ->
  list_find (fun b => Article._id b = o) (<[i := toggled user_id a]> l)
  = Some (i, toggled user_id a).
Proof.
  intros (Hi & Ha & Hleast)%list_find_Some.
  apply list_find_insert_Some. right; left.
  split_and!; eauto using lookup_lt_Some. by rewrite toggled_id.
Qed.

Lemma toggled_spec user_id a :
  let a1 := toggled user_id a in
  a1 = Article.with_likes a (Article.likes a1) (Article.like_count a1)
  /\ (user_id ∈ Article.likes a ->
      Article.likes a1 = filter (fun x => x <> user_id) (Article.likes a)
      /\ Article.like_count a1 = Article.like_count a - 1)
  /\ (user_id ∉ Article.likes a ->
      Article.likes a1 = Article.likes a ++ [user_id]
      /\ Article.like_count a1 = Article.like_count a + 1)
  /\ (user_id ∈ Article.likes a1 <-> user_id ∉ Article.likes a).
Proof.
  unfold toggled. destruct (decide (user_id ∈ Article.likes a)) as [Hin|Hin].
  - rewrite bool_decide_eq_true_2 by done. simpl.
    split; [done|]. split; [done|]. split; [done|].
    rewrite list_elem_of_filter. tauto.
  - rewrite bool_decide_eq_false_2 by done. simpl.
    split; [done|]. split; [done|]. split; [done|].
    rewrite elem_of_app, list_elem_of_singleton. tauto.
Qed.

Lemma toggled_twice user_id a :
  let a2 := toggled user_id (toggled user_id a) in
  Article.like_count a2 = Article.like_count a
  /\ (forall x, x ∈ Article.likes a2 <-> x ∈ Article.likes a)
  /\ (user_id ∉ Article.likes a -> a2 = a)
  /\ (NoDup (Article.likes a) -> Article.likes a2 ≡ₚ Article.likes a).
Proof.
  destruct (toggled_spec user_id a) as (_ & Hin & Hout & Hflip).
  destruct (toggled_spec user_id (toggled user_id a)) as (_ & Hin' & Hout' & _).
  simpl in *. destruct (decide (user_id ∈ Article.likes a)) as [Hu|Hu].
  - destruct (Hin Hu) as [Hl1 Hc1].
    destruct Hout' as [Hl2 Hc2]; [rewrite Hflip; tauto|].
    rewrite Hl2, Hc2, Hl1, Hc1. split; [lia|]. split; [|split; [done|]].
    + intros x. rewrite elem_of_app, list_elem_of_filter, list_elem_of_singleton.
      destruct (decide (x = user_id)) as [->|]; tauto.
    + intros Hnd. by apply filter_ne_once.
  - destruct (Hout Hu) as [Hl1 Hc1].
    destruct Hin' as [Hl2 Hc2]; [rewrite Hflip; tauto|].
    assert (Hback : Article.likes (toggled user_id (toggled user_id a))
                    = Article.likes a).
    { rewrite Hl2, Hl1, filter_app, filter_ne_absent by done.
      rewrite filter_cons_False by (intros Hc; by apply Hc).
      rewrite filter_nil. apply app_nil_r. }
    split; [lia|]. split; [by rewrite Hback|]. split; [|by rewrite Hback].
    intros _. destruct (toggled_spec user_id (toggled user_id a)) as (-> & _).
    rewrite Hback, Hc2, Hc1.
    replace (Article.like_count a + 1 - 1) with (Article.like_count a) by lia.
    destruct (toggled_spec user_id a) as (-> & _). by destruct a.
Qed.

Lemma toggled_invariant user_id a :
  NoDup (Article.likes a) ->
  Article.like_count a = Z.of_nat (length (Article.likes a)) ->
  NoDup (Article.likes (toggled user_id a))
  /\ Article.like_count (toggled user_id a)
     = Z.of_nat (length (Article.likes (toggled user_id a))).
Proof.
  intros Hnd Hlen.
  destruct (toggled_spec user_id a) as (_ & Hin & Hout & _). simpl in *.
  destruct (decide (user_id ∈ Article.likes a)) as [Hu|Hu].
  - destruct (Hin Hu) as [-> ->]. split; [by apply NoDup_filter|].
    pose proof (Permutation_length (filter_ne_once user_id _ Hnd Hu)) as Hp.
    rewrite length_app in Hp. simpl in Hp. lia.
  - destruct (Hout Hu) as [-> ->]. split.
    + apply NoDup_app. split; [done|]. split; [|apply NoDup_singleton].
      intros x Hx ->%list_elem_of_singleton. done.
    + rewrite length_app. simpl. lia.
Qed.

(** Claim C10, amended. For an existing article, [like_article] removes
    every occurrence of the user from [likes] and lowers [like_count] by
    one when the user is in the list, and otherwise appends the user and
    raises [like_count] by one; nothing else of the article changes. Two
    calls in a row by the same user restore [like_count] and the members
    of [likes]; they restore the list itself, and the whole database,
    when the user was not in it, and a permutation of it when the list
    has no duplicates. When the list has no duplicates and [like_count]
    is its length, both still hold after a call. *)
Theorem like_article_toggles (article_id user_id : string) (s : db) o i a :
  oid_of_str article_id = Some o ->
  list_find (fun b => Article._id b = o) (articles s) = Some (i, a) ->
  exists a1 a2 s1 s2,
    like_article article_id user_id s = (Ok true, s1)
    /\ s1 = set_articles (<[i := a1]> (articles s)) s
    /\ a1 = Article.with_likes a (Article.likes a1) (Article.like_count a1)
    /\ (user_id ∈ Article.likes a ->
        Article.likes a1 = filter (fun x => x <> user_id) (Article.likes a)
        /\ Article.like_count a1 = Article.like_count a - 1)
    /\ (user_id ∉ Article.likes a ->
        Article.likes a1 = Article.likes a ++ [user_id]
        /\ Article.like_count a1 = Article.like_count a + 1)
    /\ (user_id ∈ Article.likes a1 <-> user_id ∉ Article.likes a)
    /\ like_article article_id user_id s1 = (Ok true, s2)
    /\ s2 = set_articles (<[i := a2]> (articles s)) s
    /\ Article.like_count a2 = Article.like_count a
    /\ (forall x, x ∈ Article.likes a2 <-> x ∈ Article.likes a)
    /\ (user_id ∉ Article.likes a -> a2 = a /\ s2 = s)
    /\ (NoDup (Article.likes a) -> Article.likes a2 ≡ₚ Article.likes a)
    /\ (NoDup (Article.likes a) ->
        Article.like_count a = Z.of_nat (length (Article.likes a)) ->
        NoDup (Article.likes a1)
        /\ Article.like_count a1 = Z.of_nat (length (Article.likes a1))).
Proof.
  intros Ho Hfind.
  pose proof (like_article_found _ user_id _ _ _ _ Ho Hfind) as Hrun1.
  set (s1 := set_articles (<[i := toggled user_id a]> (articles s)) s) in *.
  assert (Hfind1 : list_find (fun b => Article._id b = o) (articles s1)
                   = Some (i, toggled user_id a))
    by (by apply find_after_toggle).
  pose proof (like_article_found _ user_id _ _ _ _ Ho Hfind1) as Hrun2.
  simpl in Hrun2. rewrite list_insert_insert_eq in Hrun2.
  destruct (toggled_spec user_id a) as (Hw & Hin & Hout & Hflip).
  destruct (toggled_twice user_id a) as (Hc2 & Hm2 & Hsame & Hperm).
  exists (toggled user_id a), (toggled user_id (toggled user_id a)), s1,
    (set_articles (<[i := toggled user_id (toggled user_id a)]> (articles s)) s).
  split; [done|]. split; [done|]. split; [done|]. split; [done|].
  split; [done|]. split; [done|]. split; [exact Hrun2|]. split; [done|].
  split; [done|]. split; [done|]. split; [|split; [done|]].
  - intros Hu. split; [auto|]. rewrite (Hsame Hu).
    unfold set_articles. rewrite list_insert_id; [by destruct s|].
    by apply list_find_Some in Hfind as (? & _).
  - apply toggled_invariant.
Qed.

End LikeFacts.
End BlogLikes.

(* ===================================================================== *)
(** ** BlogSystem: popular articles *)
(* ===================================================================== *)

Module BlogPopular.
Import Bson Py BlogSystem.

#[local] Instance by_score_desc_trans : Transitive by_score_desc.
Proof. unfold by_score_desc. intros a b c ? ?. lia. Qed.

#[local] Instance by_score_desc_total : Total by_score_desc.
Proof. unfold by_score_desc. intros a b. lia. Qed.

Lemma StronglySorted_sublist {A} (R : relation A) (l1 l2 : list A) :
  l1 `sublist_of` l2 -> StronglySorted R l2 -> StronglySorted R l1.
Proof.
  induction 1 as [|x l1 l2 Hsub IH|x l1 l2 Hsub IH]; intros Hs.
  - constructor.
  - apply StronglySorted_inv in Hs as [Hs Hall]. constructor; [auto|].
    apply Forall_forall. intros y Hy.
    eapply Forall_forall in Hall; [exact Hall|]. by eapply elem_of_sublist.
  - apply StronglySorted_inv in Hs as [Hs _]. auto.
Qed.

Lemma in_window_spec threshold a :
  in_window threshold a = true <->
  Article.status a = "published"
  /\ exists d, Article.published_date a = Some d /\ threshold <= d.
Proof.
  unfold in_window. rewrite andb_true_iff, bool_decide_eq_true.
  destruct (Article.published_date a) as [d|]; split.
  - intros [? ?]. split; [done|]. exists d. split; [done|lia].
  - intros [? (d' & ? & ?)]. simplify_eq. split; [done|lia].
  - intros [? ?]. done.
  - intros [? (d' & ? & ?)]. done.
Qed.

Section PopularFacts.
Context `{ObjectIdText}.

Lemma join_author_Ok us a r :
  join_author us a = Ok r ->
  r = [] \/ exists p, r = [p] /\ article p = a /\ popularity_score p = score a
                      /\ exists i u, us !! i = Some u
                           /\ author p = (User._id u, User.username u, User.full_name u)
                           /\ oid_of_str (Article.author_id a) = Some (User._id u).
Proof.
  unfold join_author. destruct (oid_of_str _) as [o|]; [|done].
  destruct (list_find _ us) as [[i u]|] eqn:Hfind; intros ?; simplify_eq;
    [|by left].
  right. eexists. split; [done|]. split; [done|]. split; [done|].
  apply list_find_Some in Hfind as (Hi & Ho & _). exists i, u. simpl. by subst.
Qed.

Lemma join_authors_Ok us l r :
  join_authors us l = Ok r ->
  (article <$> r) `sublist_of` l
  /\ Forall (fun p => popularity_score p = score (article p)
                      /\ exists i u, us !! i = Some u
                           /\ author p = (User._id u, User.username u, User.full_name u)
                           /\ oid_of_str (Article.author_id (article p))
                              = Some (User._id u)) r.
Proof.
  revert r. induction l as [|a l IH]; intros r; simpl.
  - intros ?; simplify_eq. split; [constructor|constructor].
  - destruct (join_author us a) as [x|e] eqn:Ha; [|done].
    destruct (join_authors us l) as [y|e]; [|done].
    intros ?; simplify_eq. destruct (IH y eq_refl) as [Hsub Hall].
    apply join_author_Ok in Ha as [->|(p & -> & Hp & Hs & Hu)]; simpl.
    + split; [by constructor|done].
    + rewrite Hp. split; [by constructor|].
      constructor; [|done]. by rewrite Hp.
Qed.

Lemma join_authors_rows us (l : list Article.t) :
  Forall (fun a => is_Some (oid_of_str (Article.author_id a))) l ->
  join_authors us l = Ok (omap (popular_row us) l).
Proof.
  induction 1 as [|a l [o Ho] Hall IH]; [done|].
  simpl. rewrite IH. unfold join_author, popular_row, author_of.
  rewrite Ho. simpl. by destruct (list_find _ us) as [[j u]|].
Qed.

Lemma join_authors_invalid us (l : list Article.t) :
  Exists (fun a => oid_of_str (Article.author_id a) = None) l ->
  exists e, join_authors us l = Raise e.
Proof.
  induction 1 as [a l Ha|a l Hex [e He]]; simpl.
  - unfold join_author at 1. rewrite Ha. eauto.
  - rewrite He. destruct (join_author us a); eauto.
Qed.

(** When [now - timedelta(days=days)] is a datetime. *)
Lemma minus_days_spec (now days : Z) :
  let t := now - days * 86400000 in
  (minus_days now days = Ok t
   /\ Z.abs days <= 999999999 /\ datetime_min <= t <= datetime_max)
  \/ (minus_days now days = Raise OverflowError
      /\ (999999999 < Z.abs days \/ t < datetime_min \/ datetime_max < t)).
Proof.
  intros t. unfold minus_days. fold t.
  destruct (Z.ltb_spec 999999999 (Z.abs days)) as [Hd|Hd]; [right; auto|].
  destruct (Z.ltb_spec t datetime_min) as [H1|H1]; simpl; [right; auto|].
  destruct (Z.ltb_spec datetime_max t) as [H2|H2]; [right; auto|].
  left. split; [done|]. lia.
Qed.

(** The calls of [get_popular_articles] that get a report, and the
    report they get. *)
Lemma get_popular_articles_run utcnow days limit s :
  get_popular_articles utcnow days limit s
  = match minus_days utcnow days with
    | Raise _ => (Ok [], s)
    | Ok date_threshold =>
        if (int64_max <? limit) || (limit <=? 0) then (Ok [], s)
        else
          match join_authors (users s)
                  (take (Z.to_nat limit)
                     (merge_sort by_score_desc
                        (filter (fun a => in_window date_threshold a)
                           (articles s)))) with
          | Ok l => (Ok l, s)
          | Raise _ => (Ok [], s)
          end
    end.
Proof.
  unfold get_popular_articles, try_except, bind, lift, aggregate_popular.
  destruct (minus_days utcnow days) as [t|e]; [|done]. simpl.
  destruct (Z.ltb_spec int64_max limit) as [Hbig|Hbig]; [done|]. simpl.
  destruct (Z.ltb_spec limit (- int64_max - 1)) as [Hlow|Hlow]; simpl.
  { destruct (Z.leb_spec limit 0) as [_|Hpos]; [done|].
    unfold int64_max in Hlow. lia. }
  destruct (limit <=? 0); [done|]. simpl.
  by destruct (join_authors _ _).
Qed.

(** Claim C8. Every result of the popular-articles report carries the
    score view_count * 1 + like_count * 3 + comment_count * 2 of its
    article, which is a published article of the collection whose
    published date is not before the start of the window; the results are
    in descending order of score and there are at most [limit] of them:
    they are taken, in order, from the first [limit] of the published
    articles of the window ranked by score. The report has a result for
    each of these first [limit] articles whose author is a stored user,
    and it is empty when the author text of one of them is no ObjectId,
    when the start of the window is no datetime, or when the limit is not
    a positive number of 64 bits. An article with 10 views, 2 likes and
    1 comment has the score 18. *)
Theorem popular_articles_report (utcnow days limit : Z) (s : db) :
  let date_threshold := utcnow - days * 86400000 in
  exists l ranked,
    get_popular_articles utcnow days limit s = (Ok l, s)
    /\ Forall (fun p =>
                 popularity_score p
                 = Article.view_count (article p) * 1
                   + Article.like_count (article p) * 3
                   + Article.comment_count (article p) * 2) l
    /\ Forall (fun p =>
                 article p ∈ articles s
                 /\ Article.status (article p) = "published"
                 /\ exists d, Article.published_date (article p) = Some d
                              /\ date_threshold <= d) l
    /\ StronglySorted
         (fun p p' => popularity_score p' <= popularity_score p) l
    /\ Z.of_nat (length l) <= Z.max 0 limit
    /\ ranked ≡ₚ filter (fun a => in_window date_threshold a) (articles s)
    /\ StronglySorted (fun a b => score b <= score a) ranked
    /\ (article <$> l) `sublist_of` take (Z.to_nat limit) ranked
    /\ (forall a, Article.view_count a = 10 -> Article.like_count a = 2 ->
                  Article.comment_count a = 1 -> score a = 18)
    /\ (Z.abs days <= 999999999 ->
        datetime_min <= date_threshold <= datetime_max ->
        0 < limit <= int64_max ->
        (Forall (fun a => is_Some (oid_of_str (Article.author_id a)))
                (take (Z.to_nat limit) ranked) ->
         l = omap (popular_row (users s)) (take (Z.to_nat limit) ranked)
         /\ forall a u,
             a ∈ take (Z.to_nat limit) ranked ->
             author_of (users s) a = Some u ->
             {| article := a; popularity_score := score a;
                author := (User._id u, User.username u, User.full_name u) |}
             ∈ l)
        /\ (Exists (fun a => oid_of_str (Article.author_id a) = None)
                   (take (Z.to_nat limit) ranked) ->
            l = []))
    /\ (999999999 < Z.abs days \/ date_threshold < datetime_min
        \/ datetime_max < date_threshold \/ limit <= 0 \/ int64_max < limit ->
        l = []).
Proof.
  intros date_threshold.
  set (ranked := merge_sort by_score_desc
                   (filter (fun a => in_window date_threshold a) (articles s))).
  assert (Hperm : ranked ≡ₚ filter (fun a => in_window date_threshold a)
                              (articles s))
    by apply merge_sort_Permutation.
  assert (Hsorted : StronglySorted by_score_desc ranked)
    by (apply StronglySorted_merge_sort; apply _).
  assert (Hscore : forall a, Article.view_count a = 10 ->
                             Article.like_count a = 2 ->
                             Article.comment_count a = 1 -> score a = 18)
    by (intros a; unfold score; lia).
  assert (Hrun : exists l,
    get_popular_articles utcnow days limit s = (Ok l, s)
    /\ (article <$> l) `sublist_of` take (Z.to_nat limit) ranked
    /\ Forall (fun p => popularity_score p = score (article p)) l
    /\ (Z.abs days <= 999999999 ->
        datetime_min <= date_threshold <= datetime_max ->
        0 < limit <= int64_max ->
        (Forall (fun a => is_Some (oid_of_str (Article.author_id a)))
                (take (Z.to_nat limit) ranked) ->
         l = omap (popular_row (users s)) (take (Z.to_nat limit) ranked))
        /\ (Exists (fun a => oid_of_str (Article.author_id a) = None)
                   (take (Z.to_nat limit) ranked) ->
            l = []))
    /\ (999999999 < Z.abs days \/ date_threshold < datetime_min
        \/ datetime_max < date_threshold \/ limit <= 0 \/ int64_max < limit ->
        l = [])).
  { rewrite get_popular_articles_run.
    destruct (minus_days_spec utcnow days)
      as [(-> & Hd & Hlo & Hhi)|(-> & Hover)]; fold date_threshold.
    - destruct (Z.ltb_spec int64_max limit) as [Hbig|Hbig]; simpl.
      { exists []. split; [done|]. split; [apply sublist_nil_l|].
        split; [constructor|]. split; [lia|done]. }
      destruct (Z.leb_spec limit 0) as [Hneg|Hpos]; simpl.
      { exists []. split; [done|]. split; [apply sublist_nil_l|].
        split; [constructor|]. split; [lia|done]. }
      fold ranked.
      destruct (join_authors (users s) (take (Z.to_nat limit) ranked))
        as [l|e] eqn:Hjoin; simpl.
      + exists l. split; [done|].
        pose proof Hjoin as [Hsub Hall]%join_authors_Ok. split; [done|].
        split. { eapply Forall_impl; [exact Hall|]. by intros p [? _]. }
        split; [|lia]. intros _ _ _. split.
        * intros Hvalid. rewrite join_authors_rows in Hjoin by done.
          by injection Hjoin.
        * intros [e He]%(join_authors_invalid (users s)). congruence.
      + exists []. split; [done|]. split; [apply sublist_nil_l|].
        split; [constructor|]. split; [|done]. intros _ _ _. split; [|done].
        intros Hvalid. rewrite join_authors_rows in Hjoin by done. done.
    - exists []. split; [done|]. split; [apply sublist_nil_l|].
      split; [constructor|]. split; [lia|done]. }
  destruct Hrun as (l & Hrun & Hsub & Hall & Hexact & Hempty).
  assert (Hsub' : (article <$> l) `sublist_of` ranked)
    by (etrans; [exact Hsub|apply sublist_take]).
  exists l, ranked. split; [done|]. split.
  { eapply Forall_impl; [exact Hall|]. intros p ->. done. }
  split.
  { apply Forall_forall. intros p Hp.
    assert (Hin : article p ∈ filter (fun a => in_window date_threshold a)
                                (articles s)).
    { rewrite <- Hperm. eapply elem_of_sublist; [|exact Hsub'].
      by apply list_elem_of_fmap_2. }
    apply list_elem_of_filter in Hin as [Hw Hin]. split; [done|].
    by apply in_window_spec, Is_true_true. }
  split.
  { pose proof (StronglySorted_sublist _ _ _ Hsub' Hsorted) as Hs.
    clear -Hs Hall. induction l as [|p l IH]; [constructor|].
    rewrite fmap_cons in Hs. apply StronglySorted_inv in Hs as [Hs Hfa].
    apply Forall_cons in Hall as [Hp Hall]. constructor; [auto|].
    apply Forall_forall. intros p' Hp'.
    rewrite Forall_forall in Hfa. specialize (Hfa (article p')).
    rewrite Forall_forall in Hall. rewrite Hp, (Hall p' Hp').
    apply Hfa. by apply list_elem_of_fmap_2. }
  split.
  { apply sublist_length in Hsub. rewrite length_fmap, length_take in Hsub.
    lia. }
  split; [done|]. split; [done|]. split; [done|]. split; [done|].
  split; [|done].
  intros Hd Hthr Hlim. destruct (Hexact Hd Hthr Hlim) as [Hrows Hbad].
  split; [|done]. intros Hvalid. split; [by apply Hrows|].
  intros a u Ha Hu. rewrite (Hrows Hvalid).
  apply list_elem_of_omap. exists a. split; [done|].
  unfold popular_row. by rewrite Hu.
Qed.

End PopularFacts.
End BlogPopular.

(* ===================================================================== *)
(** ** BlogSystem: the comment tree *)
(* ===================================================================== *)

Module BlogComments.
Import Bson Py BlogSystem.

Section CommentFacts.
Context `{ObjectIdText}.

Lemma place_fold (m : gmap string nat) (l : list (nat * Comment.t)) :
  forall acc,
    let r := fold_left (place m) l acc in
    root_comments r = root_comments acc ++ roots_of l
    /\ length (replies r) = length (replies acc)
    /\ forall j rs, replies acc !! j = Some rs ->
                    replies r !! j = Some (rs ++ children_of m j l).
Proof.
  induction l as [|[i c] l IH]; intros acc; simpl.
  - unfold roots_of, children_of. simpl. rewrite app_nil_r. split; [done|].
    split; [done|]. intros j rs Hj. by rewrite app_nil_r.
  - unfold roots_of, children_of in *.
    assert (Hplace : place m acc (i, c)
      = match parent_ref c with
        | Some p =>
            match m !! p with
            | Some parent =>
                {| root_comments := root_comments acc;
                   replies := alter (fun r => r ++ [i]) parent (replies acc) |}
            | None => acc
            end
        | None => {| root_comments := root_comments acc ++ [i];
                     replies := replies acc |}
        end) by done.
    destruct (parent_ref c) as [p|] eqn:Hp; simpl.
    + rewrite filter_cons_False by (simpl; congruence).
      destruct (m !! p) as [parent|] eqn:Hm; rewrite Hplace.
      * destruct (IH {| root_comments := root_comments acc;
                        replies := alter (fun r => r ++ [i]) parent
                                     (replies acc) |})
          as (Hroots & Hlen & Hrep). simpl in *.
        split; [done|]. split; [by rewrite Hlen, length_alter|].
        intros j rs Hj. destruct (decide (j = parent)) as [->|Hne].
        -- rewrite (Hrep parent (rs ++ [i]))
             by (by rewrite list_lookup_alter_eq, Hj).
           rewrite (filter_cons_True _ (i, c))
             by (simpl; rewrite Hp; simpl; by rewrite Hm).
           by rewrite <- app_assoc.
        -- rewrite (Hrep j rs) by (by rewrite list_lookup_alter_ne).
           rewrite (filter_cons_False _ (i, c)); [done|].
           simpl. rewrite Hp. simpl. rewrite Hm. congruence.
      * destruct (IH acc) as (Hroots & Hlen & Hrep).
        split; [done|]. split; [done|].
        intros j rs Hj. rewrite (Hrep j rs) by done.
        rewrite (filter_cons_False _ (i, c)); [done|].
        simpl. rewrite Hp. simpl. rewrite Hm. congruence.
    + rewrite filter_cons_True by done. rewrite Hplace.
      destruct (IH {| root_comments := root_comments acc ++ [i];
                      replies := replies acc |}) as (Hroots & Hlen & Hrep).
      simpl in *. rewrite Hroots, <- app_assoc. split; [done|]. split; [done|].
      intros j rs Hj. rewrite (Hrep j rs) by done.
      rewrite (filter_cons_False _ (i, c)); [done|].
      simpl. rewrite Hp. simpl. congruence.
Qed.

Lemma elem_of_indexed (comments : list Comment.t) i c :
  (i, c) ∈ indexed comments <-> comments !! i = Some c.
Proof.
  unfold indexed. rewrite elem_of_lookup_imap. split.
  - intros (i' & c' & ? & ?). by simplify_eq.
  - intros Hi. eauto.
Qed.

Lemma comment_map_fold_Some (l : list (nat * Comment.t)) :
  forall (m0 : gmap string nat) k j,
    fold_left (fun m ic => <[str_of_oid (Comment._id (snd ic)) := fst ic]> m)
      l m0 !! k = Some j ->
    (exists c, (j, c) ∈ l /\ str_of_oid (Comment._id c) = k)
    \/ m0 !! k = Some j.
Proof.
  induction l as [|[i c] l IH]; intros m0 k j; simpl; [by right|].
  intros [(c' & Hin & Hk)|Hm]%IH.
  - left. exists c'. split; [by right|done].
  - destruct (decide (str_of_oid (Comment._id c) = k)) as [<-|Hne].
    + rewrite lookup_insert_eq in Hm. simplify_eq.
      left. exists c. split; [by left|done].
    + rewrite lookup_insert_ne in Hm by done. by right.
Qed.

Lemma comment_map_fold_is_Some (l : list (nat * Comment.t)) :
  forall (m0 : gmap string nat) k,
    (exists j c, (j, c) ∈ l /\ str_of_oid (Comment._id c) = k)
    \/ is_Some (m0 !! k) ->
    is_Some (fold_left
               (fun m ic => <[str_of_oid (Comment._id (snd ic)) := fst ic]> m)
               l m0 !! k).
Proof.
  induction l as [|[i c] l IH]; intros m0 k; simpl.
  - intros [(j & c & Hin & _)|Hm]; [by apply elem_of_nil in Hin|done].
  - intros [(j & c' & Hin & Hk)|Hm]; apply IH.
    + apply elem_of_cons in Hin as [Heq|Hin].
      * simplify_eq. right. by rewrite lookup_insert_eq.
      * left. eauto.
    + right. destruct (decide (str_of_oid (Comment._id c) = k)) as [<-|Hne].
      * by rewrite lookup_insert_eq.
      * by rewrite lookup_insert_ne.
Qed.

(** The map files a text under the position of a comment with that id,
    and files every id that occurs. *)
Lemma comment_map_of_Some (comments : list Comment.t) k j :
  comment_map_of comments !! k = Some j ->
  exists c, comments !! j = Some c /\ str_of_oid (Comment._id c) = k.
Proof.
  unfold comment_map_of. intros [(c & Hin & Hk)|Hm]%comment_map_fold_Some.
  - exists c. split; [|done]. by apply elem_of_indexed.
  - by rewrite lookup_empty in Hm.
Qed.

Lemma comment_map_of_is_Some (comments : list Comment.t) c :
  c ∈ comments -> is_Some (comment_map_of comments !! str_of_oid (Comment._id c)).
Proof.
  intros [i Hi]%list_elem_of_lookup. unfold comment_map_of.
  apply comment_map_fold_is_Some. left. exists i, c.
  split; [|done]. by apply elem_of_indexed.
Qed.

Lemma organize_comments_shape (comments : list Comment.t) :
  let r := _organize_comments comments in
  root_comments r = roots_of (indexed comments)
  /\ length (replies r) = length comments
  /\ forall j, (j < length comments)%nat ->
               replies r !! j
               = Some (children_of (comment_map_of comments) j
                         (indexed comments)).
Proof.
  unfold _organize_comments.
  destruct (place_fold (comment_map_of comments) (indexed comments)
              {| root_comments := []; replies := replicate (length comments) [] |})
    as (Hroots & Hlen & Hrep). simpl in *.
  split; [done|]. split; [by rewrite Hlen, length_replicate|].
  intros j Hj. rewrite (Hrep j []); [done|]. by apply lookup_replicate_2.
Qed.

Lemma elem_of_roots_of (comments : list Comment.t) i :
  i ∈ roots_of (indexed comments) <->
  exists c, comments !! i = Some c /\ parent_ref c = None.
Proof.
  unfold roots_of. rewrite list_elem_of_fmap. split.
  - intros ([i' c] & -> & [Hp Hin%elem_of_indexed]%list_elem_of_filter). eauto.
  - intros (c & Hi & Hp). exists (i, c). split; [done|].
    apply list_elem_of_filter. split; [done|]. by apply elem_of_indexed.
Qed.

Lemma elem_of_children_of (comments : list Comment.t) m j i :
  i ∈ children_of m j (indexed comments) <->
  exists c p, comments !! i = Some c /\ parent_ref c = Some p /\ m !! p = Some j.
Proof.
  unfold children_of. rewrite list_elem_of_fmap. split.
  - intros ([i' c] & -> & [Hp Hin%elem_of_indexed]%list_elem_of_filter).
    simpl in *. destruct (parent_ref c) as [p|] eqn:Hc; [|done]. eauto.
  - intros (c & p & Hi & Hp & Hm). exists (i, c). split; [done|].
    apply list_elem_of_filter. split; [|by apply elem_of_indexed].
    simpl. by rewrite Hp.
Qed.

Lemma place_root m acc i c :
  parent_ref c = None ->
  place m acc (i, c)
  = {| root_comments := root_comments acc ++ [i]; replies := replies acc |}.
Proof. intros Hp. unfold place. simpl. by rewrite Hp. Qed.

Lemma place_child (m : gmap string nat) acc i c q j :
  parent_ref c = Some q -> m !! q = Some j ->
  place m acc (i, c)
  = {| root_comments := root_comments acc;
       replies := alter (fun r => r ++ [i]) j (replies acc) |}.
Proof. intros Hp Hm. unfold place. simpl. by rewrite Hp, Hm. Qed.

Lemma place_orphan (m : gmap string nat) acc i c q :
  parent_ref c = Some q -> m !! q = None -> place m acc (i, c) = acc.
Proof. intros Hp Hm. unfold place. simpl. by rewrite Hp, Hm. Qed.

Lemma parent_ref_Some c q :
  Comment.parent_id c = Some q -> q <> "" -> parent_ref c = Some q.
Proof.
  intros Hp Hq. unfold parent_ref. rewrite Hp.
  by rewrite bool_decide_eq_false_2.
Qed.

(** The example of the specification, for any four comments of that
    shape: their ids are different texts, none empty, and [p] is a text
    that is the id of none of them. *)
Lemma organize_example (A B C D : Comment.t) (p : string) :
  Comment.parent_id A = None ->
  Comment.parent_id B = Some (str_of_oid (Comment._id A)) ->
  Comment.parent_id C = Some (str_of_oid (Comment._id B)) ->
  Comment.parent_id D = Some p ->
  NoDup [""; p; str_of_oid (Comment._id A); str_of_oid (Comment._id B);
         str_of_oid (Comment._id C); str_of_oid (Comment._id D)] ->
  _organize_comments [A; B; C; D]
  = {| root_comments := [0%nat]; replies := [[1%nat]; [2%nat]; []; []] |}
  /\ forest [A; B; C; D] (_organize_comments [A; B; C; D])
     = Some [Node A [Node B [Node C []]]].
Proof.
  intros HA HB HC HD Hnd.
  repeat match goal with
         | Hn : NoDup (_ :: _) |- _ =>
             apply NoDup_cons in Hn as [? Hn]
         end.
  repeat match goal with
         | Hn : _ ∉ _ :: _ |- _ => apply not_elem_of_cons in Hn as [? Hn]
         end.
  assert (Horg : _organize_comments [A; B; C; D]
    = {| root_comments := [0%nat]; replies := [[1%nat]; [2%nat]; []; []] |}).
  { assert (HpA : parent_ref A = None) by (unfold parent_ref; by rewrite HA).
    assert (HpB : parent_ref B = Some (str_of_oid (Comment._id A)))
      by (apply parent_ref_Some; [done|congruence]).
    assert (HpC : parent_ref C = Some (str_of_oid (Comment._id B)))
      by (apply parent_ref_Some; [done|congruence]).
    assert (HpD : parent_ref D = Some p)
      by (apply parent_ref_Some; [done|congruence]).
    unfold _organize_comments. set (m := comment_map_of [A; B; C; D]).
    assert (HmA : m !! str_of_oid (Comment._id A) = Some 0%nat).
    { subst m. unfold comment_map_of, indexed. simpl.
      by rewrite !lookup_insert_ne, lookup_insert_eq by congruence. }
    assert (HmB : m !! str_of_oid (Comment._id B) = Some 1%nat).
    { subst m. unfold comment_map_of, indexed. simpl.
      by rewrite !lookup_insert_ne, lookup_insert_eq by congruence. }
    assert (HmD : m !! p = None).
    { subst m. unfold comment_map_of, indexed. simpl.
      by rewrite !lookup_insert_ne, lookup_empty by congruence. }
    unfold indexed. simpl.
    rewrite (place_root m _ _ A HpA).
    rewrite (place_child m _ _ B _ _ HpB HmA).
    rewrite (place_child m _ _ C _ _ HpC HmB).
    by rewrite (place_orphan m _ _ D _ HpD HmD). }
  split; [done|]. rewrite Horg. done.
Qed.

Lemma level_unique (comments : list Comment.t) a :
  forall b i, level comments a i -> level comments b i -> a = b.
Proof.
  induction a as [|a IH]; intros [|b] i Ha Hb; simpl in *; [done|..].
  - destruct Ha as (c & Hc & Hp), Hb as (j & Hj & _).
    unfold parent_of in Hj. rewrite Hc in Hj. simpl in Hj.
    rewrite Hp in Hj. done.
  - destruct Hb as (c & Hc & Hp), Ha as (j & Hj & _).
    unfold parent_of in Hj. rewrite Hc in Hj. simpl in Hj.
    rewrite Hp in Hj. done.
  - destruct Ha as (j & Hj & Ha), Hb as (j' & Hj' & Hb).
    f_equal. apply (IH b j); [done|]. congruence.
Qed.

Lemma level_lt_length (comments : list Comment.t) k i :
  level comments k i -> (i < length comments)%nat.
Proof.
  destruct k; simpl.
  - intros (c & Hc & _). by eapply lookup_lt_Some.
  - intros (j & Hj & _). unfold parent_of in Hj.
    destruct (comments !! i) eqn:Hi; [|done]. by eapply lookup_lt_Some.
Qed.

(** The chain from a comment up to its root passes through different
    comments. *)
Lemma level_chain (comments : list Comment.t) k :
  forall i, level comments k i ->
            exists l : list nat,
              length l = S k
              /\ NoDup l
              /\ Forall (fun x => exists a, (a <= k)%nat /\ level comments a x) l.
Proof.
  induction k as [|k IH]; intros i Hi.
  - exists [i]. split; [done|]. split; [apply NoDup_singleton|].
    constructor; [|constructor]. exists 0%nat. split; [lia|done].
  - pose proof Hi as (j & Hj & Hlj). destruct (IH j Hlj) as (l & Hlen & Hnd & Hall).
    exists (i :: l). split; [simpl; lia|]. split.
    + constructor; [|done]. intros Hin.
      eapply Forall_forall in Hall; [|exact Hin].
      destruct Hall as (a & Ha & Hla).
      pose proof (level_unique comments a (S k) i Hla Hi). lia.
    + constructor; [exists (S k); split; [lia|done]|].
      eapply Forall_impl; [exact Hall|]. intros x (a & Ha & Hla).
      exists a. split; [lia|done].
Qed.

Lemma level_bound (comments : list Comment.t) k i :
  level comments k i -> (k < length comments)%nat.
Proof.
  intros (l & Hlen & Hnd & Hall)%level_chain.
  assert (Hsub : l ⊆+ seq 0 (length comments)).
  { apply NoDup_submseteq; [done|]. intros x Hx.
    eapply Forall_forall in Hall; [|exact Hx]. destruct Hall as (a & _ & Hla).
    apply elem_of_seq. apply level_lt_length in Hla. lia. }
  apply submseteq_length in Hsub. rewrite length_seq in Hsub. lia.
Qed.

Lemma replies_level (comments : list Comment.t) i rs k j :
  replies (_organize_comments comments) !! i = Some rs ->
  level comments k i -> j ∈ rs -> level comments (S k) j.
Proof.
  intros Hrs Hi Hj.
  destruct (organize_comments_shape comments) as (_ & Hlen & Hrep).
  rewrite (Hrep i) in Hrs by (by eapply level_lt_length).
  simplify_eq. apply elem_of_children_of in Hj as (c & p & Hc & Hp & Hm).
  simpl. exists i. split; [|done].
  unfold parent_of. rewrite Hc. simpl. rewrite Hp. done.
Qed.

Lemma tree_at_is_Some (comments : list Comment.t) depth :
  forall k i,
    level comments k i ->
    (length comments <= depth + k)%nat ->
    is_Some (tree_at depth comments (replies (_organize_comments comments)) i).
Proof.
  destruct (organize_comments_shape comments) as (_ & Hlen & Hrep).
  induction depth as [|depth IH]; intros k i Hi Hd.
  - apply level_bound in Hi. lia.
  - simpl. pose proof (level_lt_length _ _ _ Hi) as Hlt.
    destruct (lookup_lt_is_Some_2 comments i Hlt) as [c Hc]. rewrite Hc. simpl.
    rewrite (Hrep i Hlt). simpl.
    assert (Hts : is_Some (mapM (tree_at depth comments
                                   (replies (_organize_comments comments)))
                             (children_of (comment_map_of comments) i
                                (indexed comments)))).
    { apply mapM_is_Some. apply Forall_forall. intros j Hj. simpl.
      apply (IH (S k) j); [|lia].
      eapply replies_level; [by apply Hrep|done|done]. }
    destruct Hts as [ts ->]. simpl. eauto.
Qed.

(** The roots always unfold to trees. *)
Lemma forest_is_Some (comments : list Comment.t) :
  is_Some (forest comments (_organize_comments comments)).
Proof.
  unfold forest. apply mapM_is_Some. apply Forall_forall. intros i Hi. simpl.
  destruct (organize_comments_shape comments) as (Hroots & _ & _).
  rewrite Hroots in Hi. apply elem_of_roots_of in Hi.
  apply (tree_at_is_Some comments (length comments) 0%nat i); [done|lia].
Qed.

(** Claim C4. [_organize_comments] returns as roots the comments without
    a parent, in the order of the list. A comment whose parent text is
    the id of a comment of the list is in the [replies] of a comment with
    that id and is no root. A comment whose parent text is the id of no
    comment of the list is neither a root nor in any [replies] list: it is
    left out, and nothing is raised. The roots with their replies always
    unfold to finite trees. For A (no parent), B (parent A), C (parent B)
    and D (parent unknown) the result is the single tree A - B - C. *)
Theorem organize_comments_forest :
  (forall comments : list Comment.t,
      let r := _organize_comments comments in
      root_comments r = roots_of (indexed comments)
      /\ (forall i, i ∈ root_comments r <->
                    exists c, comments !! i = Some c /\ parent_ref c = None)
      /\ (forall i c q,
             comments !! i = Some c -> parent_ref c = Some q ->
             (exists c', c' ∈ comments /\ str_of_oid (Comment._id c') = q) ->
             (i ∉ root_comments r)
             /\ exists j cj rs,
                 comments !! j = Some cj
                 /\ str_of_oid (Comment._id cj) = q
                 /\ replies r !! j = Some rs
                 /\ rs = children_of (comment_map_of comments) j
                           (indexed comments)
                 /\ i ∈ rs)
      /\ (forall i c q,
             comments !! i = Some c -> parent_ref c = Some q ->
             (forall c', c' ∈ comments -> str_of_oid (Comment._id c') <> q) ->
             (i ∉ root_comments r)
             /\ forall j rs, replies r !! j = Some rs -> i ∉ rs)
      /\ is_Some (forest comments r))
  /\ (forall (A B C D : Comment.t) (p : string),
         Comment.parent_id A = None ->
         Comment.parent_id B = Some (str_of_oid (Comment._id A)) ->
         Comment.parent_id C = Some (str_of_oid (Comment._id B)) ->
         Comment.parent_id D = Some p ->
         NoDup [""; p; str_of_oid (Comment._id A); str_of_oid (Comment._id B);
                str_of_oid (Comment._id C); str_of_oid (Comment._id D)] ->
         forest [A; B; C; D] (_organize_comments [A; B; C; D])
         = Some [Node A [Node B [Node C []]]]).
Proof.
  split.
  - intros comments r.
    destruct (organize_comments_shape comments) as (Hroots & Hlen & Hrep).
    fold r in Hroots, Hlen, Hrep.
    assert (Hnot : forall i c q, comments !! i = Some c ->
                                 parent_ref c = Some q -> i ∉ root_comments r).
    { intros i c q Hi Hq. rewrite Hroots, elem_of_roots_of.
      intros (c' & Hi' & Hq'). congruence. }
    split; [done|]. split; [|split; [|split]]; [..|apply forest_is_Some].
    + intros i. rewrite Hroots. apply elem_of_roots_of.
    + intros i c q Hi Hq (c' & Hc' & Hid). split; [eauto|].
      destruct (comment_map_of_is_Some comments c' Hc') as [j Hj].
      rewrite Hid in Hj.
      destruct (comment_map_of_Some comments q j Hj) as (cj & Hcj & Hidj).
      exists j, cj, (children_of (comment_map_of comments) j (indexed comments)).
      split; [done|]. split; [done|].
      split; [apply Hrep; by eapply lookup_lt_Some|]. split; [done|].
      apply elem_of_children_of. eauto.
    + intros i c q Hi Hq Hnone. split; [eauto|].
      intros j rs Hj Hin.
      assert (Hlt : (j < length comments)%nat)
        by (rewrite <- Hlen; by eapply lookup_lt_Some).
      rewrite (Hrep j Hlt) in Hj. simplify_eq.
      apply elem_of_children_of in Hin as (c' & q' & Hi' & Hq' & Hm).
      assert (c' = c) as -> by congruence.
      assert (q' = q) as -> by congruence.
      destruct (comment_map_of_Some comments q j Hm) as (cj & Hcj & Hidj).
      apply (Hnone cj); [by eapply list_elem_of_lookup_2|done].
  - intros A B C D p HA HB HC HD Hnd.
    by destruct (organize_example A B C D p HA HB HC HD Hnd).
Qed.

End CommentFacts.
End BlogComments.

(* ===================================================================== *)
(** ** BlogSystem: reading time *)
(* ===================================================================== *)

Module BlogReading.
Import Bson Py BlogSystem.

(** [round_div n d] is the integer nearest to [n / d]; on a tie it is the
    even one. *)
Lemma round_div_nearest (n d : Z) :
  0 < d ->
  let r := round_div n d in
  2 * Z.abs (d * r - n) <= d
  /\ (2 * Z.abs (d * r - n) = d -> Z.even r = true).
Proof.
  intros Hd. unfold round_div.
  pose proof (Z.div_mod n d) as Hdm. pose proof (Z.mod_pos_bound n d Hd) as Hb.
  set (q := n / d) in *. set (m := n mod d) in *.
  assert (Hn : n = d * q + m) by lia. clear Hdm.
  destruct (2 * m <? d) eqn:H1; [apply Z.ltb_lt in H1|apply Z.ltb_ge in H1].
  - simpl. split; [nia|]. intros Heq. nia.
  - destruct (d <? 2 * m) eqn:H2; [apply Z.ltb_lt in H2|apply Z.ltb_ge in H2].
    + simpl. split; [nia|]. intros Heq. nia.
    + destruct (Z.even q) eqn:He; simpl.
      * split; [nia|done].
      * split; [nia|]. intros _. rewrite Z.even_add, He. done.
Qed.

(** The nearest integer with ties to even is unique. *)
Lemma round_div_unique (n d r : Z) :
  0 < d ->
  2 * Z.abs (d * r - n) <= d ->
  (2 * Z.abs (d * r - n) = d -> Z.even r = true) ->
  r = round_div n d.
Proof.
  intros Hd Hr Heven.
  destruct (round_div_nearest n d Hd) as [Hr' Heven'].
  set (r' := round_div n d) in *.
  assert (Hclose : r = r' \/ (r = r' + 1 /\ 2 * Z.abs (d * r - n) = d
                              /\ 2 * Z.abs (d * r' - n) = d)
                   \/ (r' = r + 1 /\ 2 * Z.abs (d * r - n) = d
                       /\ 2 * Z.abs (d * r' - n) = d)) by nia.
  destruct Hclose as [?|[(-> & H1 & H2)|(Heq & H1 & H2)]]; [done|exfalso..].
  - specialize (Heven H1). specialize (Heven' H2).
    rewrite Z.even_add in Heven. rewrite Heven' in Heven. done.
  - specialize (Heven H1). specialize (Heven' H2).
    rewrite Heq, Z.even_add in Heven'. rewrite Heven in Heven'. done.
Qed.

Example words_300 :
  length (split (words_text 300)) = 300%nat
  /\ _calculate_reading_time (words_text 300) = 2.
Proof. vm_compute. done. Qed.

Lemma spaceless_snoc w c :
  spaceless w -> is_space c = false -> spaceless (w +:+ String c "").
Proof.
  unfold spaceless. induction w as [|x w IH]; simpl; intros Hw Hc.
  - by repeat constructor.
  - apply Forall_cons in Hw as [Hx Hw]. constructor; auto.
Qed.

(** The words of [split] are not empty and hold no whitespace. *)
Lemma split_from_words s :
  forall word, spaceless word ->
               Forall (fun w => w <> "" /\ spaceless w) (split_from word s).
Proof.
  induction s as [|c s IH]; intros word Hw; simpl.
  - case_bool_decide; [constructor|]. by repeat constructor.
  - destruct (is_space c) eqn:Hc.
    + case_bool_decide.
      * apply IH. constructor.
      * constructor; [done|]. apply IH. constructor.
    + apply IH. by apply spaceless_snoc.
Qed.

Section ReadingFacts.
Context `{ObjectIdText}.

Lemma create_article_Some fresh created published updated title content
      author_id category tags status s r s' :
  create_article fresh created published updated title content author_id
    category tags status s = (Ok (Some r), s') ->
  exists a, articles s' = articles s ++ [a]
            /\ Article._id a = fresh
            /\ Article.content a = content
            /\ Article.reading_time a = _calculate_reading_time content
            /\ Article.likes a = [] /\ Article.like_count a = 0
            /\ r = str_of_oid fresh.
Proof.
  unfold create_article, try_except, bind, articles_insert_one. simpl.
  destruct (existsb _ (articles s)); simpl; intros Hrun; simplify_eq.
  eexists. split; [done|]. done.
Qed.

(** Claim C9, amended. The reading time is the number of words of the
    content divided by 200 and rounded to the nearest integer, a tie going
    to the even one, and at least 1: it is the only such number. The words
    are the non-empty runs of characters without whitespace.
    [create_article] stores this number with the article. *)
Theorem reading_time_rounded (content : string) :
  let words := Z.of_nat (length (split content)) in
  let rt := _calculate_reading_time content in
  rt = Z.max 1 (round_div words 200)
  /\ 1 <= rt
  /\ 2 * Z.abs (200 * round_div words 200 - words) <= 200
  /\ (2 * Z.abs (200 * round_div words 200 - words) = 200 ->
      Z.even (round_div words 200) = true)
  /\ (forall r, 2 * Z.abs (200 * r - words) <= 200 ->
                (2 * Z.abs (200 * r - words) = 200 -> Z.even r = true) ->
                rt = Z.max 1 r)
  /\ Forall (fun w => w <> "" /\ spaceless w) (split content)
  /\ (forall fresh created published updated title author_id category tags
             status s r s',
         create_article fresh created published updated title content
           author_id category tags status s = (Ok (Some r), s') ->
         exists a, articles s' = articles s ++ [a]
                   /\ Article.content a = content
                   /\ Article.reading_time a = rt).
Proof.
  intros words rt.
  destruct (round_div_nearest words 200) as [Hnear Htie]; [lia|].
  split; [done|]. split; [unfold rt, _calculate_reading_time; lia|].
  split; [done|]. split; [done|]. split; [|split].
  - intros r Hr Heven. unfold rt, _calculate_reading_time. fold words.
    by rewrite (round_div_unique words 200 r).
  - apply split_from_words. constructor.
  - intros * Hrun. apply create_article_Some in Hrun as (a & ? & ? & ? & ? & _).
    eauto.
Qed.

End ReadingFacts.
End BlogReading.

(* ===================================================================== *)
(** ** The statements on the sample data *)
(* ===================================================================== *)

Module OnSamples.
Import Bson Mongo Py Demo.

(** The text form of the [bson] package, as in the sample data. *)
#[local] Existing Instance hex_text.



(** C1 on the sample data: two tasks for Ahmed among three creations,
    then a deletion, and one more creation. *)
Lemma task_count_follows_tasks_witness :
  TaskManager.task_count_of ahmed tm_tasks = Some (VInt 2)
  /\ TaskManager.task_count_of ahmed
       (snd (@TaskManager.create_tasks hex_text [ui_task; test_task] tm_users))
     = Some (VInt 2)
  /\ (exists s',
         @TaskManager.delete_task hex_text 0%N (VStr "TASK-0001") tm_tasks
         = (Ok true, s')
         /\ TaskManager.task_count_of ahmed s' = Some (VInt 1))
  /\ TaskManager.task_count_of ahmed
       (snd (@TaskManager.create_task hex_text 0x64b7f0c2a1d3e4f5a6b7c904%N
               4000 4001 "Deploy" "Deploy the new app" ahmed_id "medium"
               VNull tm_tasks))
     = Some (VInt 3).
Proof.
  destruct (@TaskCounters.task_count_follows_tasks hex_text)
    as (Hcreate & Hdelete & Hrun & Hall).
  split; [|split; [|split]].
  - apply (Hrun ahmed [ui_task; review_task; test_task] tm_users
             [Some (VOid 0x64b7f0c2a1d3e4f5a6b7c901%N);
              Some (VOid 0x64b7f0c2a1d3e4f5a6b7c903%N);
              Some (VOid 0x64b7f0c2a1d3e4f5a6b7c902%N)] tm_tasks 0).
    + apply (@bool_decide_unpack _ (Forall_dec _ _)). vm_compute. exact I.
    + vm_compute. reflexivity.
    + vm_compute. reflexivity.
  - apply (Hall ahmed [ui_task; test_task] tm_users
             [Some (VOid 0x64b7f0c2a1d3e4f5a6b7c901%N);
              Some (VOid 0x64b7f0c2a1d3e4f5a6b7c902%N)]).
    + apply (@bool_decide_unpack _ (Forall_dec _ _)). vm_compute. exact I.
    + vm_compute. reflexivity.
    + repeat constructor.
    + vm_compute. reflexivity.
    + repeat constructor; eexists; reflexivity.
  - destruct (Hdelete 0%N (VStr "TASK-0001") tm_tasks
                (default ∅ (TaskManager.tasks tm_tasks !! 0%nat))
                (VStr ahmed_id) ahmed 2) as (s' & Hrun' & _ & Hcount & _).
    + vm_compute. reflexivity.
    + vm_compute. reflexivity.
    + vm_compute. reflexivity.
    + vm_compute. reflexivity.
    + exists s'. split; [exact Hrun'|exact Hcount].
  - destruct (Hcreate 0x64b7f0c2a1d3e4f5a6b7c904%N 4000 4001 "Deploy"
                "Deploy the new app" ahmed_id "medium" VNull tm_tasks
                (snd (@TaskManager.create_task hex_text
                        0x64b7f0c2a1d3e4f5a6b7c904%N 4000 4001 "Deploy"
                        "Deploy the new app" ahmed_id "medium" VNull tm_tasks))
                (VOid 0x64b7f0c2a1d3e4f5a6b7c904%N) ahmed 2)
      as (_ & Hcount & _).
    + vm_compute. reflexivity.
    + vm_compute. reflexivity.
    + vm_compute. reflexivity.
    + exact Hcount.
Defined.


(** C3 on the sample data: the task due at 9000 is not overdue at 9000
    and is overdue at 9001. *)
Lemma overdue_tasks_exact_witness :
  (exists l,
      @TaskManager.get_overdue_tasks 9000 tm_tasks = (Ok l, tm_tasks)
      /\ (default ∅ (TaskManager.tasks tm_tasks !! 0%nat) ∉ l))
  /\ (exists l,
         @TaskManager.get_overdue_tasks 9001 tm_tasks = (Ok l, tm_tasks)
         /\ default ∅ (TaskManager.tasks tm_tasks !! 0%nat) ∈ l).
Proof.
  split.
  - destruct (TaskReports.overdue_tasks_exact 9000 tm_tasks)
      as (l & Hrun & _ & _ & _ & Hnow & _).
    exists l. split; [exact Hrun|].
    apply Hnow. vm_compute. reflexivity.
  - destruct (TaskReports.overdue_tasks_exact 9001 tm_tasks)
      as (l & Hrun & _ & _ & Hplain & _).
    exists l. split; [exact Hrun|].
    apply (Hplain _ 9000 "todo").
    + vm_compute. reflexivity.
    + vm_compute. reflexivity.
    + split; [|split; [lia|split; discriminate]].
      apply (list_elem_of_lookup_2 _ 0%nat). vm_compute. reflexivity.
Defined.

(** C4 on the sample data: the comments A, B, C and the orphan D. *)
Lemma organize_comments_forest_witness :
  @BlogSystem.forest [comment_a; comment_b; comment_c; comment_d]
    (@BlogSystem._organize_comments hex_text
       [comment_a; comment_b; comment_c; comment_d])
  = Some [BlogSystem.Node comment_a
            [BlogSystem.Node comment_b [BlogSystem.Node comment_c []]]]
  /\ (3%nat ∉ BlogSystem.root_comments
               (@BlogSystem._organize_comments hex_text
                  [comment_a; comment_b; comment_c; comment_d])).
Proof.
  destruct (@BlogComments.organize_comments_forest hex_text)
    as [Hshape Hexample].
  split.
  - apply (Hexample comment_a comment_b comment_c comment_d
             "0000000000000000000000ff").
    + reflexivity.
    + vm_compute. reflexivity.
    + vm_compute. reflexivity.
    + reflexivity.
    + apply (@bool_decide_unpack _ (NoDup_dec _)). vm_compute. exact I.
  - destruct (Hshape [comment_a; comment_b; comment_c; comment_d])
      as (_ & _ & _ & Hdropped & _).
    apply (Hdropped 3%nat comment_d "0000000000000000000000ff").
    + reflexivity.
    + reflexivity.
    + intros c' Hin.
      repeat (apply elem_of_cons in Hin as [->|Hin];
              [vm_compute; discriminate|]).
      by apply elem_of_nil in Hin.
Defined.


(** C7 on the sample data: the deletion of an unknown task. *)
Lemma delete_task_not_found_witness :
  @TaskManager.delete_task hex_text 0%N (VStr "TASK-9999") tm_tasks
  = (Ok false, tm_tasks).
Proof.
  apply (@TaskUpdates.delete_task_not_found hex_text).
  vm_compute. reflexivity.
Defined.

(** C8 on the sample data: the report of the last 7 days has the one
    article, with the score 18 for 10 views, 2 likes and 1 comment and
    with its author; a window of 800000 days starts before the first
    datetime, and the report is empty. *)
Lemma popular_articles_report_witness :
  BlogSystem.get_popular_articles 2000 7 10 blog
  = (Ok [ {| BlogSystem.article := post;
             BlogSystem.popularity_score := 18;
             BlogSystem.author := (ahmed, "ahmed_dev", "Ahmed Mohamed") |} ],
     blog)
  /\ BlogSystem.get_popular_articles 2000 800000 10 blog = (Ok [], blog)
  /\ BlogSystem.score post = 18.
Proof.
  split; [|split].
  - destruct (BlogPopular.popular_articles_report 2000 7 10 blog)
      as (l & ranked & Hrun & _ & _ & _ & _ & Hperm & _ & _ & _ & Hrows & _).
    assert (Hranked : ranked = [post]).
    { apply Permutation_singleton_r. rewrite Hperm. vm_compute.
      reflexivity. }
    destruct Hrows as [Hrows _];
      [vm_compute; discriminate
      |split; vm_compute; discriminate
      |split; vm_compute; [reflexivity|discriminate]|].
    destruct Hrows as [-> _].
    { rewrite Hranked. repeat constructor. vm_compute. eauto. }
    rewrite Hrun. rewrite Hranked. vm_compute. reflexivity.
  - destruct (BlogPopular.popular_articles_report 2000 800000 10 blog)
      as (l & ranked & Hrun & _ & _ & _ & _ & _ & _ & _ & _ & _ & Hempty).
    rewrite Hrun, Hempty; [reflexivity|].
    right. left. vm_compute. reflexivity.
  - destruct (BlogPopular.popular_articles_report 2000 7 10 blog)
      as (l & ranked & _ & _ & _ & _ & _ & _ & _ & _ & Hscore & _).
    apply Hscore; reflexivity.
Defined.

(** C9 on the sample data: an article of 300 words is stored with a
    reading time of 2 minutes. *)
Lemma reading_time_rounded_witness :
  exists a,
    BlogSystem.articles
      (snd (@BlogSystem.create_article hex_text 0x64b7f0c2a1d3e4f5a6b7ca02%N
              2000 2001 2002 "Long read" (BlogSystem.words_text 300) ahmed_id
              "Technology" [] "draft" blog))
    = BlogSystem.articles blog ++ [a]
    /\ BlogSystem.Article.reading_time a = 2.
Proof.
  destruct (@BlogReading.reading_time_rounded hex_text
              (BlogSystem.words_text 300))
    as (_ & _ & _ & _ & _ & _ & Hstored).
  destruct (Hstored 0x64b7f0c2a1d3e4f5a6b7ca02%N 2000 2001 2002 "Long read"
              ahmed_id "Technology" [] "draft" blog
              "64b7f0c2a1d3e4f5a6b7ca02"
              (snd (@BlogSystem.create_article hex_text
                      0x64b7f0c2a1d3e4f5a6b7ca02%N 2000 2001 2002 "Long read"
                      (BlogSystem.words_text 300) ahmed_id "Technology" []
                      "draft" blog)))
    as (a & Hs & _ & Hrt).
  - vm_compute. reflexivity.
  - exists a. split; [exact Hs|]. rewrite Hrt. vm_compute. reflexivity.
Defined.

(** C9, counterexample: a text of 300 words is given 2 minutes; the
    quotient 300 / 200 is 1 as an integer and 3/2 as a fraction. *)
Lemma reading_time_not_the_quotient :
  let content := BlogSystem.words_text 300 in
  let words := Z.of_nat (length (BlogSystem.split content)) in
  words = 300
  /\ BlogSystem._calculate_reading_time content = 2
  /\ BlogSystem._calculate_reading_time content <> Z.max 1 (words / 200)
  /\ 200 * BlogSystem._calculate_reading_time content <> Z.max 200 words.
Proof. vm_compute. repeat split; congruence. Qed.

(** C10 on the sample data: a user who is not in the list likes twice. *)
Lemma like_article_toggles_witness :
  exists s1 s2,
    @BlogSystem.like_article hex_text post_id "w" blog = (Ok true, s1)
    /\ @BlogSystem.like_article hex_text post_id "w" s1 = (Ok true, s2)
    /\ s2 = blog.
Proof.
  destruct (@BlogLikes.like_article_toggles hex_text post_id "w" blog
              0x64b7f0c2a1d3e4f5a6b7ca01%N 0%nat post)
    as (a1 & a2 & s1 & s2 & H1 & _ & _ & _ & _ & _ & H2 & _ & _ & _ & Hback & _).
  - vm_compute. reflexivity.
  - vm_compute. reflexivity.
  - exists s1, s2. split; [exact H1|]. split; [exact H2|].
    apply Hback. vm_compute. intros Hin.
    repeat (apply elem_of_cons in Hin as [Hin|Hin]; [discriminate Hin|]).
    by apply elem_of_nil in Hin.
Defined.

(** C10, counterexample: a user who is in the list and likes twice ends
    up at the end of the list; and a user who occurs twice in the list is
    removed twice while the counter goes down by one. *)
Lemma like_twice_not_restored :
  let twice := snd (@BlogSystem.like_article hex_text post_id "u"
                      (snd (@BlogSystem.like_article hex_text post_id "u"
                              blog))) in
  let once := snd (@BlogSystem.like_article hex_text post_id "u" blog_twice) in
  BlogSystem.Article.likes <$> BlogSystem.articles blog = [["u"; "v"]]
  /\ BlogSystem.Article.likes <$> BlogSystem.articles twice = [["v"; "u"]]
  /\ BlogSystem.Article.likes <$> BlogSystem.articles twice
     <> BlogSystem.Article.likes <$> BlogSystem.articles blog
  /\ BlogSystem.Article.like_count post_twice
     = Z.of_nat (length (BlogSystem.Article.likes post_twice))
  /\ (fun a => (BlogSystem.Article.like_count a,
                length (BlogSystem.Article.likes a)))
       <$> BlogSystem.articles once = [(1, 0%nat)].
Proof. vm_compute. repeat split; congruence. Qed.

End OnSamples.
